(** * jquery-constraint-numeric: configuration resolution and validation dispatch

    A shallow embedding of [src/jquery-constraint-numeric.js] (the constructor
    [Numeric], its prototype and the jQuery binding) together with the
    properties of its specification.

    Conventions of the embedding.
    - JavaScript values are the type [value]. Numbers are IEEE 754 binary64
      ([PrimFloat.float]) with the coercions of ECMAScript ([+v],
      [parseInt(v, 10)], [String(v)]) in [JSNumber]; strings are sequences of
      8-bit code units.
    - Plain objects live in a heap [gmap loc (gmap string value)] and are
      passed by reference ([VObj l]), so the sharing of the [defaults] object
      between instances is visible. DOM elements, jQuery sets, functions and
      the instance are values without properties of their own, except the
      members of the instance.
    - A method is a computation in the monad [M]: it threads the [state] and
      either returns a value or raises a JavaScript exception.
    - [this.name(...)] is resolved when the call is made, by the name, among
      the fields of the instance and the keys of [Numeric.prototype]; [call]
      applies the function value found, within a bounded stack.
    - What jQuery provides ([$.extend], [$.proxy], [.val()], [.data()],
      [.on()], [.trigger()], [$.Event]) is modelled after its behaviour on
      the values above. A callback of the page is a function that returns a
      fixed value and is recorded when it runs.
    - An object of the heap holds data properties only. The conversion of
      an object to a number or to text runs the [valueOf] and [toString] it
      owns or inherits (an array, a date, an object with methods of its
      own), and may raise; here every object converts as a plain object
      with the inherited methods does. What depends on the conversion of an
      option is therefore stated for the primitive values ([primitive]):
      [undefined], [null], booleans, numbers and strings. *)

From Stdlib Require Import ZArith Floats Ascii String List.
From stdpp Require Import gmap strings pretty.

Local Open Scope string_scope.
Local Open Scope Z_scope.

(** ** Numbers: the coercions of ECMAScript on binary64

    [of_string] is StringToNumber (the unary [+] on a string), [parse_int] is
    [parseInt(text, 10)] and [to_string] is Number::toString in radix 10,
    all computed with integers and rounded once to the nearest binary64. *)

Module JSNumber.

Definition number := float.

Definition NaN : number := PrimFloat.nan.
Definition Infinity : number := PrimFloat.infinity.

(** Rounding of the integer multiple [m * 2^e] to the nearest binary64,
    ties to even. *)
Definition round_binary (m e : Z) : number :=
  SF2Prim (binary_normalize 53 1024 m e false).

Definition signed (neg : bool) (m : Z) : Z := if neg then - m else m.

(** The binary64 nearest to [(-1)^neg * m * 10^e10], for [0 <= m]. When the
    exponent is negative the quotient is computed with more than 64
    significant bits and a sticky bit for the remainder, which rounds as
    the exact quotient does. *)
Definition of_decimal (neg : bool) (m e10 : Z) : number :=
  if m =? 0 then (if neg then PrimFloat.neg_zero else PrimFloat.zero)
  else if 0 <=? e10 then round_binary (signed neg (m * 10 ^ e10)) 0
  else
    let d := 10 ^ (- e10) in
    let s := Z.max 0 (Z.log2 d + 66 - Z.log2 m) in
    let q := (m * 2 ^ s) / d in
    let r := (m * 2 ^ s) mod d in
    let sticky := if r =? 0 then 0 else 1 in
    round_binary (signed neg (2 * q + sticky)) (- s - 1).

(** *** Scanning of numeric text *)

Definition code (c : ascii) : Z := Z.of_N (N_of_ascii c).

(** WhiteSpace and LineTerminator code units below 256. *)
Definition is_white (c : ascii) : bool :=
  let n := code c in
  ((9 <=? n) && (n <=? 13)) || (n =? 32) || (n =? 160).

Fixpoint trim_start (l : list ascii) : list ascii :=
  match l with
  | c :: r => if is_white c then trim_start r else l
  | [] => []
  end.

Definition trim (l : list ascii) : list ascii :=
  rev (trim_start (rev (trim_start l))).

(** Value of a digit in the given radix. *)
Definition digit (radix : Z) (c : ascii) : option Z :=
  let n := code c in
  let v := if (48 <=? n) && (n <=? 57) then n - 48
           else if (97 <=? n) && (n <=? 122) then n - 87
           else if (65 <=? n) && (n <=? 90) then n - 55
           else radix in
  if v <? radix then Some v else None.

(** The longest prefix of digits: its value, its length and the rest. *)
Fixpoint digits (radix : Z) (l : list ascii) (acc count : Z)
  : Z * Z * list ascii :=
  match l with
  | c :: r =>
      match digit radix c with
      | Some v => digits radix r (acc * radix + v) (count + 1)
      | None => (acc, count, l)
      end
  | [] => (acc, count, [])
  end.

Definition split_sign (l : list ascii) : bool * list ascii :=
  match l with
  | "-"%char :: r => (true, r)
  | "+"%char :: r => (false, r)
  | _ => (false, l)
  end.

(** ExponentPart, optional: [None] when the text is malformed. *)
Definition exponent_part (l : list ascii) : option Z :=
  match l with
  | [] => Some 0
  | c :: r =>
      if (code c =? 101) || (code c =? 69) then
        let '(neg, r') := split_sign r in
        let '(v, n, rest) := digits 10 r' 0 0 in
        match rest with
        | [] => if 0 <? n then Some (signed neg v) else None
        | _ => None
        end
      else None
  end.

(** StrUnsignedDecimalLiteral other than [Infinity]. *)
Definition unsigned_decimal (neg : bool) (l : list ascii) : number :=
  let '(ip, ni, r1) := digits 10 l 0 0 in
  let '(fp, nf, r2) :=
    match r1 with
    | "."%char :: r => digits 10 r 0 0
    | _ => (0, 0, r1)
    end in
  if (ni + nf =? 0) then NaN
  else
    match exponent_part r2 with
    | Some e => of_decimal neg (ip * 10 ^ nf + fp) (e - nf)
    | None => NaN
    end.

Definition radix_literal (radix : Z) (l : list ascii) : number :=
  let '(v, n, rest) := digits radix l 0 0 in
  match rest with
  | [] => if 0 <? n then of_decimal false v 0 else NaN
  | _ => NaN
  end.

(** StringToNumber: the whole trimmed text must be a StrNumericLiteral
    (decimal with optional sign, fraction and exponent; [Infinity]; or an
    unsigned literal in radix 16, 8 or 2); the empty text is [+0]. *)
Definition of_string (s : string) : number :=
  let l := trim (list_ascii_of_string s) in
  match l with
  | [] => PrimFloat.zero
  | "0"%char :: c :: r =>
      let n := code c in
      if (n =? 120) || (n =? 88) then radix_literal 16 r
      else if (n =? 111) || (n =? 79) then radix_literal 8 r
      else if (n =? 98) || (n =? 66) then radix_literal 2 r
      else unsigned_decimal false l
  | _ =>
      let '(neg, r) := split_sign l in
      if String.eqb (string_of_list_ascii r) "Infinity"
      then (if neg then PrimFloat.neg_infinity else Infinity)
      else unsigned_decimal neg r
  end.

(** [parseInt(text, 10)]: optional white space, optional sign, then the
    longest prefix of decimal digits; [NaN] when there is none. *)
Definition parse_int (s : string) : number :=
  let '(neg, r) := split_sign (trim_start (list_ascii_of_string s)) in
  let '(v, n, _) := digits 10 r 0 0 in
  if 0 <? n then of_decimal neg v 0 else NaN.

(** *** Number::toString *)

(** A positive finite number is the fraction [num / den]. *)
Definition fraction (m : positive) (e : Z) : Z * Z :=
  (Z.pos m * 2 ^ Z.max e 0, 2 ^ Z.max (- e) 0).

(** [num / den < 10^j]. *)
Definition below_pow10 (num den j : Z) : bool :=
  if 0 <=? j then num <? 10 ^ j * den else num * 10 ^ (- j) <? den.

(** The least [j] from [lo] on with [num / den < 10^j]. *)
Fixpoint magnitude (fuel : nat) (num den lo : Z) : Z :=
  match fuel with
  | O => lo
  | S k => if below_pow10 num den lo then lo else magnitude k num den (lo + 1)
  end.

(** A lower bound of the decimal magnitude, from the binary one: at most
    four below it, since [30103 / 100000] exceeds [log10 2] by less than
    [5e-9]. *)
Definition estimate (num den : Z) : Z :=
  (Z.log2 num - Z.log2 den) * 30103 / 100000 - 2.

(** The two decimals of [k] digits around [num / den] at magnitude [n],
    nearest first (the even one first on a tie). *)
Definition neighbours (num den n k : Z) : list Z :=
  let '(a, b) := if 0 <=? k - n then (num * 10 ^ (k - n), den)
                 else (num, den * 10 ^ (n - k)) in
  let lo := a / b in
  let r := a mod b in
  if r =? 0 then [lo]
  else if 2 * r <? b then [lo; lo + 1]
  else if b <? 2 * r then [lo + 1; lo]
  else if Z.even lo then [lo; lo + 1] else [lo + 1; lo].

(** Shortest digits [s] and magnitude [n] with [s * 10^(n-k)] reading back
    as [x], trying [k = 1, 2, ...]; seventeen digits always do. *)
Fixpoint shortest (fuel : nat) (x : number) (num den n k : Z) : Z * Z :=
  match fuel with
  | O => (0, n)
  | S f =>
      match filter (fun s => PrimFloat.eqb (of_decimal false s (n - k)) x)
                   (neighbours num den n k) with
      | s :: _ => if s =? 10 ^ k then (1, n + 1) else (s, n)
      | [] => shortest f x num den n (k + 1)
      end
  end.

Definition zeros (n : Z) : string :=
  string_of_list_ascii (repeat "0"%char (Z.to_nat n)).

Definition layout (ds : string) (n : Z) : string :=
  let k := Z.of_nat (String.length ds) in
  if (k <=? n) && (n <=? 21) then ds ++ zeros (n - k)
  else if (0 <? n) && (n <=? 21) then
    substring 0 (Z.to_nat n) ds ++ "." ++ substring (Z.to_nat n) (Z.to_nat (k - n)) ds
  else if (-6 <? n) && (n <=? 0) then "0." ++ zeros (- n) ++ ds
  else
    let e := n - 1 in
    let exp := (if e <? 0 then "-" else "+") ++ pretty (Z.abs e) in
    if k =? 1 then ds ++ "e" ++ exp
    else substring 0 1 ds ++ "." ++ substring 1 (Z.to_nat (k - 1)) ds ++ "e" ++ exp.

Definition to_string (x : number) : string :=
  match Prim2SF x with
  | S754_nan => "NaN"
  | S754_zero _ => "0"
  | S754_infinity s => if s then "-Infinity" else "Infinity"
  | S754_finite s m e =>
      let '(num, den) := fraction m e in
      let n := magnitude 8 num den (estimate num den) in
      let '(d, n') := shortest 20 (PrimFloat.abs x) num den n 1 in
      (if s then "-" else "") ++ layout (pretty d) n'
  end.

(** Strict equality of numbers: [NaN] differs from itself, [+0] equals [-0]. *)
Definition eqb (x y : number) : bool := PrimFloat.eqb x y.

(** *** Integers among the numbers *)



End JSNumber.

(** ** Values *)

Definition loc := positive.
Definition fn_id := positive.
Definition node_id := positive.

Inductive value :=
| VUndefined
| VNull
| VBool (b : bool)
| VNum (n : JSNumber.number)
| VStr (s : string)
| VObj (l : loc)                (* a plain object of the heap, by reference *)
| VFun (f : fn_id)              (* a function object: user callback or proxy *)
| VMethod (name : string)       (* a function object of [Numeric.prototype] *)
| VNode (n : node_id)           (* a DOM element *)
| VJQuery (ns : list node_id)   (* a jQuery set of DOM elements *)
| VThis.                        (* the [Numeric] instance *)

Inductive exn :=
| TypeError (msg : string)
| ReferenceError (name : string)
| RangeError (msg : string).

Definition typeof (v : value) : string :=
  match v with
  | VUndefined => "undefined"
  | VBool _ => "boolean"
  | VNum _ => "number"
  | VStr _ => "string"
  | VFun _ | VMethod _ => "function"
  | VNull | VObj _ | VNode _ | VJQuery _ | VThis => "object"
  end.

Definition is_undefined (v : value) : bool :=
  match v with VUndefined => true | _ => false end.

(** The primitive values: everything but objects and functions. *)
Definition primitive (v : value) : bool :=
  match v with
  | VUndefined | VNull | VBool _ | VNum _ | VStr _ => true
  | _ => false
  end.

(** [===]: primitives by value, everything else by reference. *)
Definition strict_eq (a b : value) : bool :=
  match a, b with
  | VUndefined, VUndefined => true
  | VNull, VNull => true
  | VBool x, VBool y => Bool.eqb x y
  | VNum x, VNum y => JSNumber.eqb x y
  | VStr x, VStr y => String.eqb x y
  | VObj x, VObj y => Pos.eqb x y
  | VFun x, VFun y => Pos.eqb x y
  | VMethod x, VMethod y => String.eqb x y
  | VNode x, VNode y => Pos.eqb x y
  | VJQuery x, VJQuery y => bool_decide (x = y)
  | VThis, VThis => true
  | _, _ => false
  end.

(** ToBoolean. *)
Definition truthy (v : value) : bool :=
  match v with
  | VUndefined | VNull => false
  | VBool b => b
  | VNum n => negb (JSNumber.eqb n PrimFloat.zero || PrimFloat.is_nan n)
  | VStr s => negb (String.eqb s "")
  | _ => true
  end.

(** ToString. On a primitive value this is the conversion of ECMAScript.
    An object is given the text of a plain object with the inherited
    [toString]; a function converts to its source text, which is never
    numeric text: the text of a proxy stands for it. The [toString] and
    [valueOf] an object owns are not run. *)
Definition to_string (v : value) : string :=
  match v with
  | VUndefined => "undefined"
  | VNull => "null"
  | VBool b => if b then "true" else "false"
  | VNum n => JSNumber.to_string n
  | VStr s => s
  | VFun _ | VMethod _ => "function () { [native code] }"
  | VObj _ | VNode _ | VJQuery _ | VThis => "[object Object]"
  end.

(** ToNumber, the unary [+]: on a primitive value the conversion of
    ECMAScript, on an object the number of its text above. *)
Definition to_number (v : value) : JSNumber.number :=
  match v with
  | VUndefined => JSNumber.NaN
  | VNull => PrimFloat.zero
  | VBool b => if b then PrimFloat.one else PrimFloat.zero
  | VNum n => n
  | _ => JSNumber.of_string (to_string v)
  end.

(** [parseInt(v, 10)]: the integer prefix of the text of [v]. *)
Definition parseInt (v : value) : JSNumber.number :=
  JSNumber.parse_int (to_string v).

(** [a || b] on values already computed. *)
Definition or_else (a b : value) : value := if truthy a then a else b.

(** ** State *)

Record instance := Instance {
  element : value;              (* this.element *)
  jq_element : list node_id;    (* this.$element *)
  options : value;              (* this.options *)
  metadata : value;             (* this.metadata *)
  config : value;               (* this.config *)
  elementLastValue : value      (* this.elementLastValue *)
}.

Record node := Node {
  node_value : string;          (* the text in the field *)
  node_options : value          (* its data-numeric-options, parsed *)
}.

Inductive fn_def :=
| User (result : value)                         (* a callback of the page *)
| Bound (target ctx : value) (args : list value). (* made by [$.proxy] *)

Record state := State {
  self : instance;
  heap : gmap loc (gmap string value);
  fns : gmap fn_id fn_def;
  globals : gmap string value;                  (* properties of [window] *)
  document : gmap node_id node;
  select : string -> list node_id;              (* what [$(selector)] matches *)
  bindings : list (node_id * string * value);   (* handlers set by [.on] *)
  triggered : list (node_id * value);           (* events sent by [.trigger] *)
  calls : list (fn_id * value * list value)     (* callbacks run *)
}.

Definition set_self (i : instance) (st : state) : state :=
  State i (heap st) (fns st) (globals st) (document st) (select st)
        (bindings st) (triggered st) (calls st).

Definition set_heap (h : gmap loc (gmap string value)) (st : state) : state :=
  State (self st) h (fns st) (globals st) (document st) (select st)
        (bindings st) (triggered st) (calls st).

Definition set_fns (f : gmap fn_id fn_def) (st : state) : state :=
  State (self st) (heap st) f (globals st) (document st) (select st)
        (bindings st) (triggered st) (calls st).

Definition set_bindings (b : list (node_id * string * value)) (st : state) : state :=
  State (self st) (heap st) (fns st) (globals st) (document st) (select st)
        b (triggered st) (calls st).

Definition set_triggered (t : list (node_id * value)) (st : state) : state :=
  State (self st) (heap st) (fns st) (globals st) (document st) (select st)
        (bindings st) t (calls st).

Definition set_calls (c : list (fn_id * value * list value)) (st : state) : state :=
  State (self st) (heap st) (fns st) (globals st) (document st) (select st)
        (bindings st) (triggered st) c.

Definition set_config (v : value) (i : instance) : instance :=
  Instance (element i) (jq_element i) (options i) (metadata i) v
           (elementLastValue i).

Definition set_elementLastValue (v : value) (i : instance) : instance :=
  Instance (element i) (jq_element i) (options i) (metadata i) (config i) v.

(** ** The monad of methods: state and exceptions *)

Inductive outcome (A : Type) :=
| Ret (a : A)
| Throw (e : exn).
Arguments Ret {A} a.
Arguments Throw {A} e.

Definition M (A : Type) : Type := state -> outcome A * state.

Definition ret {A} (a : A) : M A := fun st => (Ret a, st).

Definition throw {A} (e : exn) : M A := fun st => (Throw e, st).

Definition bind {A B} (c : M A) (k : A -> M B) : M B :=
  fun st =>
    match c st with
    | (Ret a, st') => k a st'
    | (Throw e, st') => (Throw e, st')
    end.

Definition gets {A} (f : state -> A) : M A := fun st => (Ret (f st), st).

Definition modify (f : state -> state) : M unit := fun st => (Ret tt, f st).

Declare Scope js_scope.
Delimit Scope js_scope with js.
Notation "x <- c ;; k" := (bind c (fun x => k))
  (at level 100, c at next level, right associativity) : js_scope.
Notation "c ;; k" := (bind c (fun _ => k))
  (at level 100, right associativity) : js_scope.
Local Open Scope js_scope.

Definition when (b : bool) (c : M unit) : M unit := if b then c else ret tt.

(** ** Objects *)

Definition props_at (h : gmap loc (gmap string value)) (l : loc) : gmap string value :=
  default ∅ (h !! l).

(** Reading a property that is not there gives [undefined]. *)
Definition read (p : gmap string value) (name : string) : value :=
  default VUndefined (p !! name).

(** The indexed properties of a string: one per code unit. *)
Definition string_props (s : string) : gmap string value :=
  list_to_map (imap (fun i c => (pretty i, VStr (String c EmptyString)))
                    (list_ascii_of_string s)).

(** [v.length === n] for a string [v]. A length is an integer below [2^53],
    which binary64 holds exactly, so the comparison is one of naturals. *)
Definition length_is (v : value) (n : nat) : bool :=
  match v with
  | VStr s => Nat.eqb (String.length s) n
  | _ => false
  end.

(** [new Object] with the given properties, at a location not in use. *)
Definition alloc (p : gmap string value) : M value :=
  fun st =>
    let l := fresh (dom (heap st)) in
    (Ret (VObj l), set_heap (<[l := p]> (heap st)) st).

(** Locations of the objects that [Numeric.prototype] holds.
    [Numeric.defaults] is the object at [defaults_loc] too. *)
Definition defaults_loc : loc := 1%positive.
Definition eventLookupTable_loc : loc := 2%positive.
Definition message_loc : loc := 3%positive.
Definition eventType_loc : loc := 4%positive.

(** [Numeric.prototype.defaults] as the source declares it. *)
Definition defaults : gmap string value :=
  <["negative" := VBool true]>
  (<["decimal" := VBool true]>
  (<["decimalPlaces" := VUndefined]>
  (<["delegateRemoval" := VBool true]>
  (<["delegateRealtime" := VBool true]>
  (<["callbackInvalidEntry" := VUndefined]>
  (<["callbackValidEntry" := VUndefined]> ∅)))))).

Definition array (items : list value) : gmap string value :=
  <["length" := VNum (JSNumber.of_decimal false (Z.of_nat (length items)) 0)]>
  (list_to_map (imap (fun i v => (pretty i, v)) items)).

(** [Numeric.prototype.eventLookupTable]. *)
Definition eventLookupTable : gmap string value :=
  <["message" := VObj message_loc]> (<["eventType" := VObj eventType_loc]> ∅).

Definition eventLookupTable_message : gmap string value :=
  array [VStr "An invalid character was entered within the text field.";
         VStr "The text field contains valid characters."].

Definition eventLookupTable_eventType : gmap string value :=
  array [VStr "scr:numeric.entry_invalid"; VStr "scr:numeric.entry_valid"].

(** The heap when the script has been loaded. *)
Definition prototype_heap : gmap loc (gmap string value) :=
  <[defaults_loc := defaults]>
  (<[eventLookupTable_loc := eventLookupTable]>
  (<[message_loc := eventLookupTable_message]>
  (<[eventType_loc := eventLookupTable_eventType]> ∅))).

(** The function-valued keys of [Numeric.prototype]. *)
Definition prototype_methods : list string :=
  ["init"; "mergeConfiguration"; "bindEventReceivers";
   "hasElementValueChanged"; "validate"; "validateLive"; "validateLazy";
   "validationResult"; "buildEventObject"].

(** [this.name]: the fields the constructor and the methods assign, then the
    keys of [Numeric.prototype]; any other name reads as [undefined] (the
    members of [Object.prototype] are left out). *)
Definition this_get (name : string) : M value :=
  gets (fun st =>
    if String.eqb name "element" then element (self st)
    else if String.eqb name "$element" then VJQuery (jq_element (self st))
    else if String.eqb name "options" then options (self st)
    else if String.eqb name "metadata" then metadata (self st)
    else if String.eqb name "config" then config (self st)
    else if String.eqb name "elementLastValue" then elementLastValue (self st)
    else if String.eqb name "defaults" then VObj defaults_loc
    else if String.eqb name "eventLookupTable" then VObj eventLookupTable_loc
    else if existsb (String.eqb name) prototype_methods then VMethod name
    else VUndefined).

(** [v.name]. Reading a property of [undefined] or [null] raises. *)
Definition get_prop (v : value) (name : string) : M value :=
  match v with
  | VUndefined | VNull =>
      throw (TypeError ("Cannot read property '" ++ name ++ "' of " ++ to_string v))
  | VObj l => gets (fun st => read (props_at (heap st) l) name)
  | VStr s =>
      if String.eqb name "length"
      then ret (VNum (JSNumber.of_decimal false (Z.of_nat (String.length s)) 0))
      else ret (read (string_props s) name)
  | VThis => this_get name
  | _ => ret VUndefined
  end.

(** [v.name = x]. *)
Definition set_prop (v : value) (name : string) (x : value) : M unit :=
  match v with
  | VUndefined | VNull =>
      throw (TypeError ("Cannot set property '" ++ name ++ "' of " ++ to_string v))
  | VObj l =>
      modify (fun st =>
        set_heap (<[l := <[name := x]> (props_at (heap st) l)]> (heap st)) st)
  | _ => ret tt
  end.

(** A free identifier resolves to a property of the global object. *)
Definition global (name : string) : M value :=
  fun st =>
    match globals st !! name with
    | Some v => (Ret v, st)
    | None => (Throw (ReferenceError (name ++ " is not defined")), st)
    end.

(** ** jQuery *)

(** The properties that [for (name in v)] visits. *)
Definition enumerable (h : gmap loc (gmap string value)) (v : value) : gmap string value :=
  match v with
  | VObj l => props_at h l
  | VStr s => string_props s
  | _ => ∅
  end.

(** One source of [$.extend]: every property whose value is not [undefined]
    is copied over the target's. *)
Definition copy_defined (target src : gmap string value) : gmap string value :=
  filter (fun kv => is_undefined kv.2 = false) src ∪ target.

(** [$.extend({}, s1, ..., sn)]. *)
Definition jq_extend (sources : list value) : M value :=
  fun st =>
    alloc (foldl (fun t s => copy_defined t (enumerable (heap st) s)) ∅ sources) st.

(** [$(v)] for a DOM element, a set, a selector and for nothing
    ([undefined], [null], [false]), which gives the empty set. jQuery wraps
    any other object in a set of one, on which [.val()] fails; such a set is
    not a list of elements, and the instances considered are constructed on
    an element or on nothing ([on_element]). *)
Definition jquery (v : value) : M (list node_id) :=
  match v with
  | VNode n => ret [n]
  | VJQuery ns => ret ns
  | VStr s => gets (fun st => select st s)
  | _ => ret []
  end.

(** [.val()]: the text of the first element, [undefined] on the empty set. *)
Definition jq_val (ns : list node_id) : M value :=
  match ns with
  | [] => ret VUndefined
  | n :: _ => gets (fun st => VStr (from_option node_value "" (document st !! n)))
  end.

(** [.data('numeric-options')]. *)
Definition jq_data (ns : list node_id) : M value :=
  match ns with
  | [] => ret VUndefined
  | n :: _ => gets (fun st => from_option node_options VUndefined (document st !! n))
  end.

(** [.on(events, handler)]. *)
Definition jq_on (ns : list node_id) (events : list string) (handler : value) : M unit :=
  modify (fun st =>
    set_bindings
      (bindings st ++ flat_map (fun n => map (fun ev => (n, ev, handler)) events) ns)%list
      st).

(** [.trigger(e)]: the event is sent to every element of the set. *)
Definition jq_trigger (ns : list node_id) (e : value) : M unit :=
  modify (fun st => set_triggered (triggered st ++ map (fun n => (n, e)) ns)%list st).

(** [$.proxy(f, ctx, args...)]: a new function bound to [ctx], or
    [undefined] when [f] is not a function. *)
Definition jq_proxy (f ctx : value) (args : list value) : M value :=
  if String.eqb (typeof f) "function" then
    fun st =>
      let id := fresh (dom (fns st)) in
      (Ret (VFun id), set_fns (<[id := Bound f ctx args]> (fns st)) st)
  else ret VUndefined.

(** [new $.Event(type)]. *)
Definition jq_Event (type : value) : M value :=
  alloc (<["type" := type]> ∅).

(** ** Numeric *)

(** The constructor: [new Numeric(element, options)]. *)
Definition Numeric (el opts : value) : M unit :=
  ns <- jquery el ;;
  md <- jq_data ns ;;
  modify (set_self (Instance el ns opts md VUndefined VUndefined)).

Definition arg (i : nat) (args : list value) : value := nth i args VUndefined.

Definition set_this_config (v : value) : M unit :=
  modify (fun st => set_self (set_config v (self st)) st).

Definition set_this_elementLastValue (v : value) : M unit :=
  modify (fun st => set_self (set_elementLastValue v (self st)) st).

(** [this.$element.val()]. *)
Definition element_val : M value :=
  ns <- gets (fun st => jq_element (self st)) ;;
  jq_val ns.

(** [this.config.name] and [this.defaults.name]. *)
Definition config_get (name : string) : M value :=
  c <- this_get "config" ;; get_prop c name.

Definition defaults_get (name : string) : M value :=
  d <- this_get "defaults" ;; get_prop d name.

(** [this.config.name = v]. *)
Definition config_set (name : string) (v : value) : M unit :=
  c <- this_get "config" ;; set_prop c name v.

(** [if (typeof this.config.name !== "boolean") this.config.name = this.defaults.name]. *)
Definition reset_unless_boolean (name : string) : M unit :=
  v <- config_get name ;;
  when (negb (String.eqb (typeof v) "boolean"))
       (d <- defaults_get name ;; config_set name d).

(** [if (typeof this.config.name !== "function") this.config.name = undefined]. *)
Definition clear_unless_function (name : string) : M unit :=
  v <- config_get name ;;
  when (negb (String.eqb (typeof v) "function"))
       (config_set name VUndefined).

(** The first statement of [mergeConfiguration]:
    [this.config = $.extend({}, this.defaults, this.options, this.metadata)]. *)
Definition merge_sources : M unit :=
  d <- this_get "defaults" ;;
  o <- this_get "options" ;;
  m <- this_get "metadata" ;;
  c <- jq_extend [d; o; m] ;;
  set_this_config c.

(** [if (this.config.decimal === false || (typeof this.config.decimal ===
    "string" && this.config.decimal.length !== 1)) this.config.decimal =
    this.defaults.decimal]. *)
Definition reset_invalid_decimal : M unit :=
  v <- config_get "decimal" ;;
  when (strict_eq v (VBool false)
        || (String.eqb (typeof v) "string" && negb (length_is v 1)))
       (d <- defaults_get "decimal" ;; config_set "decimal" d).

(** [if (typeof this.config.decimal !== "string") this.config.decimal = "."]. *)
Definition default_western_decimal : M unit :=
  v <- config_get "decimal" ;;
  when (negb (String.eqb (typeof v) "string"))
       (config_set "decimal" (VStr ".")).

(** [this.config.decimalPlaces = (this.config.decimalPlaces !==
    this.defaults.decimalPlaces && +this.config.decimalPlaces !==
    parseInt(this.config.decimalPlaces, 10) ? this.defaults.decimalPlaces :
    +this.config.decimalPlaces)]. The two conversions are those of
    [to_number] and [parseInt]: this is the statement of the source when
    the option is a primitive value. *)
Definition coerce_decimalPlaces : M unit :=
  v <- config_get "decimalPlaces" ;;
  d <- defaults_get "decimalPlaces" ;;
  x <- (if negb (strict_eq v d) && negb (JSNumber.eqb (to_number v) (parseInt v))
        then defaults_get "decimalPlaces"
        else v' <- config_get "decimalPlaces" ;; ret (VNum (to_number v'))) ;;
  config_set "decimalPlaces" x.

(** [mergeConfiguration] (lines 100-149): the merge, then one statement per
    option. *)
Definition mergeConfiguration (args : list value) : M value :=
  merge_sources ;;
  reset_unless_boolean "negative" ;;
  reset_invalid_decimal ;;
  default_western_decimal ;;
  coerce_decimalPlaces ;;
  reset_unless_boolean "delegateRemoval" ;;
  reset_unless_boolean "delegateRealtime" ;;
  clear_unless_function "callbackInvalidEntry" ;;
  clear_unless_function "callbackValidEntry" ;;
  ret VUndefined.

(** [hasElementValueChanged] (lines 190-208). *)
Definition hasElementValueChanged (args : list value) : M value :=
  last <- this_get "elementLastValue" ;;
  if strict_eq last VUndefined then
    v <- element_val ;;
    set_this_elementLastValue v ;;
    ret (VBool true)
  else
    v <- element_val ;;
    if strict_eq last v then ret (VBool false)
    else
      v' <- element_val ;;
      set_this_elementLastValue v' ;;
      ret (VBool true).

(** [buildEventObject(resultStatus, customMessage, typeContext)] (lines
    362-413). The identifier [message] is not a parameter or a local: it
    resolves to a global. The members [resultEventInfoLookup] and
    [resultInfoLookup] are read from the instance as the source names them. *)
Definition buildEventObject (args : list value) : M value :=
  let resultStatus := arg 0 args in
  let typeContext := arg 2 args in
  let eventReturnCode := VNum (to_number resultStatus) in
  message <- global "message" ;;
  eventMessage <-
    (if truthy message then ret message
     else
       t <- this_get "resultEventInfoLookup" ;;
       ms <- get_prop t "message" ;;
       m <- get_prop ms (to_string eventReturnCode) ;;
       ret (or_else m (VStr "Unknown event type."))) ;;
  t <- this_get "resultInfoLookup" ;;
  ts <- get_prop t "eventType" ;;
  ty <- get_prop ts (to_string eventReturnCode) ;;
  let eventType := or_else ty (VStr "scr:numeric.entry_validity_unknown") in
  let eventContext := or_else typeContext (VStr "standard") in
  e <- jq_Event (VStr (to_string eventType ++ "." ++ to_string eventContext)) ;;
  lastValue <- this_get "elementLastValue" ;;
  el <- this_get "element" ;;
  jq <- this_get "$element" ;;
  type <- alloc (<["name" := eventType]> (<["context" := eventContext]> ∅)) ;;
  elem <- alloc (<["value" := lastValue]> (<["ref" := el]> (<["resolved" := jq]> ∅))) ;;
  info <- alloc (<["caller" := VThis]> (<["code" := eventReturnCode]>
                (<["message" := eventMessage]> (<["type" := type]>
                (<["element" := elem]> ∅))))) ;;
  set_prop e "info" info ;;
  ret e.

Section Prototype.

(** [call f this args]: the application of a function value, resolved when
    the call is made. *)
Variable call : value -> value -> list value -> M value.

(** [this.name(args)]. *)
Definition this_call (name : string) (args : list value) : M value :=
  f <- this_get name ;; call f VThis args.

(** [init] (lines 88-93). *)
Definition init (args : list value) : M value :=
  this_call "mergeConfiguration" [] ;;
  this_call "bindEventReceivers" [] ;;
  ret VThis.

(** [bindEventReceivers] (lines 156-179). *)
Definition bindEventReceivers (args : list value) : M value :=
  this_call "hasElementValueChanged" [] ;;
  ns <- gets (fun st => jq_element (self st)) ;;
  lazy <- this_get "validateLazy" ;;
  h <- jq_proxy lazy VThis [] ;;
  jq_on ns ["change"; "blur"] h ;;
  r <- config_get "delegateRealtime" ;;
  if strict_eq r (VBool false) then ret VThis
  else
    live <- this_get "validateLive" ;;
    h' <- jq_proxy live VThis [] ;;
    jq_on ns ["keydown"; "keypress"; "keyup"] h' ;;
    ret VThis.

(** [validationResult(resultStatus, customMessage, typeContext)] (lines
    331-351). The method called first is [this.buildEvent], as the source
    names it. The identifier [result] is not a parameter or a local: it
    resolves to a global. *)
Definition validationResult (args : list value) : M value :=
  e <- this_call "buildEvent" [arg 0 args; arg 1 args; arg 2 args] ;;
  ns <- gets (fun st => jq_element (self st)) ;;
  jq_trigger ns e ;;
  result <- global "result" ;;
  if strict_eq result (VBool true) then
    cb <- config_get "callbackValidEntry" ;;
    jq_proxy cb VThis [e]
  else
    cb <- config_get "callbackInvalidEntry" ;;
    jq_proxy cb VThis [e].

(** [validateLive] (lines 254-274). The guard reads the member
    [hasElementValueChanged] and compares it with [false]; it does not call
    it. *)
Definition validateLive (args : list value) : M value :=
  h <- this_get "hasElementValueChanged" ;;
  if strict_eq h (VBool false) then ret VThis
  else this_call "validationResult" [VBool false; VStr "Character % not allowed."].

(** [validateLazy] (lines 281-301), with the same guard. *)
Definition validateLazy (args : list value) : M value :=
  h <- this_get "hasElementValueChanged" ;;
  if strict_eq h (VBool false) then ret VThis
  else this_call "validationResult" [VBool true].

(** [validate] (lines 229-246). [this.validateLive().validateLazy()] calls
    [validateLazy] on what [validateLive] returned. *)
Definition validate (args : list value) : M value :=
  el <- this_get "element" ;;
  if strict_eq el VUndefined then ret VThis
  else
    h <- this_get "hasElementValueChanged" ;;
    if strict_eq h (VBool false) then ret VThis
    else
      r <- this_call "validateLive" [] ;;
      f <- get_prop r "validateLazy" ;;
      call f r [] ;;
      ret VThis.

(** The methods of [Numeric.prototype], by name. *)
Definition prototype (name : string) : option (list value -> M value) :=
  if String.eqb name "init" then Some init
  else if String.eqb name "mergeConfiguration" then Some mergeConfiguration
  else if String.eqb name "bindEventReceivers" then Some bindEventReceivers
  else if String.eqb name "hasElementValueChanged" then Some hasElementValueChanged
  else if String.eqb name "validate" then Some validate
  else if String.eqb name "validateLive" then Some validateLive
  else if String.eqb name "validateLazy" then Some validateLazy
  else if String.eqb name "validationResult" then Some validationResult
  else if String.eqb name "buildEventObject" then Some buildEventObject
  else None.

End Prototype.

Definition callable (f : value) : bool := String.eqb (typeof f) "function".

(** Application of a function value with [depth] frames of stack left.
    Applying what is not a function raises a TypeError; a method of the
    prototype runs its body on the instance; a proxy applies its target to
    the bound receiver and arguments; a callback of the page is recorded in
    [calls] and returns its result. *)
Fixpoint call (depth : nat) (f this : value) (args : list value) : M value :=
  if negb (callable f) then throw (TypeError (to_string f ++ " is not a function"))
  else
    match depth with
    | O => throw (RangeError "Maximum call stack size exceeded")
    | S d =>
        match f with
        | VMethod name =>
            match prototype (call d) name with
            | Some body => body args
            | None => throw (TypeError (name ++ " is not a function"))
            end
        | VFun id =>
            fun st =>
              match fns st !! id with
              | Some (Bound target ctx pre) => call d target ctx (pre ++ args)%list st
              | Some (User r) =>
                  (Ret r, set_calls (calls st ++ [(id, this, args)])%list st)
              | None => (Ret VUndefined, set_calls (calls st ++ [(id, this, args)])%list st)
              end
        | _ => throw (TypeError (to_string f ++ " is not a function"))
        end
    end.

(** [this.name(args)] from outside, with [depth] frames of stack. *)
Definition method (depth : nat) (name : string) (args : list value) : M value :=
  this_call (call depth) name args.

(** [this.each(function () { new Numeric(this, options).init(); })]: one
    instance per element of the set, constructed and initialised in turn.
    The state holds the members of one instance, the one constructed last,
    and [VThis] denotes it: the handlers bound for an earlier element of a
    larger set would run on the last instance, so what is proved of
    [.numeric()] is proved for a set of one element. *)
Fixpoint each_numeric (depth : nat) (ns : list node_id) (opts : value) : M unit :=
  match ns with
  | [] => ret tt
  | n :: rest =>
      Numeric (VNode n) opts ;;
      method depth "init" [] ;;
      each_numeric depth rest opts
  end.

(** [$(elements).numeric(options)] (lines 441-445): [each] returns the set
    it was called on. *)
Definition jq_numeric (depth : nat) (ns : list node_id) (opts : value) : M value :=
  each_numeric depth ns opts ;;
  ret (VJQuery ns).

(** Handlers run in the order they were bound, with the element as
    receiver. *)
Fixpoint run_handlers (depth : nat) (this : value) (hs : list value) (ev : value) : M unit :=
  match hs with
  | [] => ret tt
  | h :: rest => call depth h this [ev] ;; run_handlers depth this rest ev
  end.

(** The handlers bound to the element [n] for the event [type] run. *)
Definition fire (depth : nat) (n : node_id) (type : string) (ev : value) : M unit :=
  hs <- gets (fun st =>
          map snd (filter (fun b => b.1 = (n, type)) (bindings st))) ;;
  run_handlers depth (VNode n) hs ev.

(** ** The resolution as a function of the properties *)

(** The properties of [this.config]. *)
Definition this_config (st : state) : gmap string value :=
  match config (self st) with
  | VObj c => props_at (heap st) c
  | _ => ∅
  end.

(** The properties [$.extend({}, this.defaults, this.options, this.metadata)]
    gives the new object. *)
Definition merged (st : state) : gmap string value :=
  foldl (fun t s => copy_defined t (enumerable (heap st) s)) ∅
        [VObj defaults_loc; options (self st); metadata (self st)].

(** The state once [this.config] is the new object [c] with properties [p]. *)
Definition with_config (st : state) (c : loc) (p : gmap string value) : state :=
  set_heap (<[c := p]> (heap st)) (set_self (set_config (VObj c) (self st)) st).

(** What the statements of [mergeConfiguration] after the first do to the
    properties of [this.config], given those of [this.defaults]. *)
Definition reset_boolean (D : gmap string value) (name : string)
    (p : gmap string value) : gmap string value :=
  if negb (String.eqb (typeof (read p name)) "boolean")
  then <[name := read D name]> p else p.

Definition clear_function (name : string) (p : gmap string value) : gmap string value :=
  if negb (String.eqb (typeof (read p name)) "function")
  then <[name := VUndefined]> p else p.

Definition reset_decimal (D p : gmap string value) : gmap string value :=
  let v := read p "decimal" in
  if strict_eq v (VBool false)
     || (String.eqb (typeof v) "string" && negb (length_is v 1))
  then <["decimal" := read D "decimal"]> p else p.

Definition western_decimal (p : gmap string value) : gmap string value :=
  if negb (String.eqb (typeof (read p "decimal")) "string")
  then <["decimal" := VStr "."]> p else p.

Definition resolve_decimalPlaces (D p : gmap string value) : gmap string value :=
  let v := read p "decimalPlaces" in
  let d := read D "decimalPlaces" in
  <["decimalPlaces" :=
      if negb (strict_eq v d) && negb (JSNumber.eqb (to_number v) (parseInt v))
      then d else VNum (to_number v)]> p.

Definition resolve (D p : gmap string value) : gmap string value :=
  clear_function "callbackValidEntry"
    (clear_function "callbackInvalidEntry"
      (reset_boolean D "delegateRealtime"
        (reset_boolean D "delegateRemoval"
          (resolve_decimalPlaces D
            (western_decimal
              (reset_decimal D
                (reset_boolean D "negative" p))))))).

(** Typing into the field [n]. *)
Definition type_text (n : node_id) (s : string) (st : state) : state :=
  State (self st) (heap st) (fns st) (globals st)
        (<[n := Node s (from_option node_options VUndefined (document st !! n))]> (document st))
        (select st) (bindings st) (triggered st) (calls st).

(** The text of the field [n]. *)
Definition text_of (st : state) (n : node_id) : string :=
  from_option node_value "" (document st !! n).

(** ** The wording of the specification *)

(** The first of the values that is not [undefined]. *)
Fixpoint first_defined (vs : list value) : value :=
  match vs with
  | [] => VUndefined
  | v :: rest => if is_undefined v then first_defined rest else v
  end.

(** The override order as the specification words it: the value of the
    field in [M] when [M] has the field, else in [U] when [U] has it, else
    in [D]. *)
Definition precedence_as_stated (D U M : gmap string value) (f : string) : value :=
  match M !! f with
  | Some v => v
  | None => match U !! f with
            | Some v => v
            | None => read D f
            end
  end.

(** The [decimal] option as the specification resolves it. *)
Definition decimal_as_specified (v : value) : value :=
  match v with
  | VBool true => VStr "."
  | VStr s => if Nat.eqb (String.length s) 1 then VStr s else VStr "."
  | _ => VStr "."
  end.

(** A value round-trips through integer coercion: [+v === parseInt(v, 10)]. *)
Definition round_trips (v : value) : bool :=
  JSNumber.eqb (to_number v) (parseInt v).







(** The configuration key of the callback for an outcome. *)
Definition callback_key (valid : bool) : string :=
  if valid then "callbackValidEntry" else "callbackInvalidEntry".

(** The field [f] of [this.config] right after the merge is what the
    specification's override order gives. *)
Definition merge_follows_stated_precedence (st : state) (f : string) : Prop :=
  (bind merge_sources (fun _ => config_get f) st).1
  = Ret (precedence_as_stated (props_at (heap st) defaults_loc)
           (enumerable (heap st) (options (self st)))
           (enumerable (heap st) (metadata (self st))) f).

(** ** Example states *)

(** A page with one text field holding [12.5], the script loaded, no
    instance attached. *)
Definition unattached : instance :=
  Instance VUndefined [] VUndefined VUndefined VUndefined VUndefined.

Definition page : state :=
  State unattached prototype_heap ∅ ∅
        (<[1%positive := Node "12.5" VUndefined]> ∅)
        (fun _ => []) [] [] [].

(** The same page after [$(field).numeric()]. *)
Definition attached_page : state := (jq_numeric 4 [1%positive] VUndefined page).2.

(** The page of a caller who passes a callback for valid entries:
    [$(field).numeric({callbackValidEntry: f})]. *)
Definition callback_page : state :=
  let opts : gmap string value := <["callbackValidEntry" := VFun 1%positive]> ∅ in
  let st := set_fns (<[1%positive := User (VBool true)]> ∅)
              (set_heap (<[5%positive := opts]> prototype_heap) page) in
  (jq_numeric 4 [1%positive] (VObj 5%positive) st).2.

(** A caller who passes [{decimal: undefined}]. *)
Definition undefined_option_page : state :=
  let opts : gmap string value := <["decimal" := VUndefined]> ∅ in
  let st := set_heap (<[5%positive := opts]> prototype_heap) page in
  (Numeric (VNode 1%positive) (VObj 5%positive) st).2.

(** A caller who passes [{decimal: "#", decimalPlaces: "3"}]. *)
Definition places_page : state :=
  let opts : gmap string value :=
    <["decimal" := VStr "#"]> (<["decimalPlaces" := VStr "3"]> ∅) in
  let st := set_heap (<[5%positive := opts]> prototype_heap) page in
  (Numeric (VNode 1%positive) (VObj 5%positive) st).2.


(** ** Initialisation as a function of the state *)

(** The instance is constructed on a DOM element, or on nothing:
    [this.$element] is [$(this.element)]. *)
Definition on_element (st : state) : bool :=
  match element (self st), jq_element (self st) with
  | VNode n, [m] => Pos.eqb n m
  | VUndefined, [] | VNull, [] => true
  | _, _ => false
  end.

(** What [this.$element.val()] reads. *)
Definition current_val (st : state) : value :=
  match jq_element (self st) with
  | [] => VUndefined
  | n :: _ => VStr (text_of st n)
  end.

(** The state once [this.elementLastValue] is [v]. *)
Definition record_value (v : value) (st : state) : state :=
  set_self (set_elementLastValue v (self st)) st.

(** The bindings [.on(events, h)] adds on the elements [ns]. *)
Definition handlers (ns : list node_id) (events : list string) (h : value)
  : list (node_id * string * value) :=
  flat_map (fun n => map (fun ev => (n, ev, h)) events) ns.

(** The state once a proxy of the method [name] on the instance is made
    and bound to [events]. *)
Definition bind_proxy (name : string) (events : list string) (st : state) : state :=
  let h := fresh (dom (fns st)) in
  set_bindings (bindings st ++ handlers (jq_element (self st)) events (VFun h))%list
    (set_fns (<[h := Bound (VMethod name) VThis []]> (fns st)) st).

(** [this.config.delegateRealtime === false]. *)
Definition realtime_off (st : state) : bool :=
  strict_eq (read (this_config st) "delegateRealtime") (VBool false).

(** The state [bindEventReceivers] leaves. *)
Definition receivers_bound (st : state) : state :=
  let st1 := bind_proxy "validateLazy" ["change"; "blur"]
               (record_value (current_val st) st) in
  if realtime_off st then st1
  else bind_proxy "validateLive" ["keydown"; "keypress"; "keyup"] st1.

(** The state [init] leaves, [D] being the properties of the defaults. *)
Definition initialised (D : gmap string value) (st : state) : state :=
  receivers_bound (with_config st (fresh (dom (heap st))) (resolve D (merged st))).

(** A boolean option as the source resolves it against the default [true]. *)
Definition boolean_or_true (v : value) : value :=
  if String.eqb (typeof v) "boolean" then v else VBool true.


(** [null] and the booleans. *)
Definition null_or_boolean (v : value) : bool :=
  match v with
  | VNull | VBool _ => true
  | _ => false
  end.


(** A page whose field carries [data-numeric-options='{"decimal": ","}']
    and whose script passes [{decimal: "#", delegateRealtime: false}]. *)
Definition attribute_page : state :=
  let opts : gmap string value :=
    <["decimal" := VStr "#"]> (<["delegateRealtime" := VBool false]> ∅) in
  let attr : gmap string value := <["decimal" := VStr ","]> ∅ in
  State unattached
        (<[5%positive := opts]> (<[6%positive := attr]> prototype_heap)) ∅ ∅
        (<[1%positive := Node "7" (VObj 6%positive)]> ∅)
        (fun _ => []) [] [] [].

(** A caller who passes [{decimalPlaces: false}]. *)
Definition no_places_page : state :=
  let opts : gmap string value := <["decimalPlaces" := VBool false]> ∅ in
  let st := set_heap (<[5%positive := opts]> prototype_heap) page in
  (Numeric (VNode 1%positive) (VObj 5%positive) st).2.

(** * Properties *)

(** ** Coercions on sample inputs *)

Example to_number_samples :
  to_number (VStr "3") = 3%float
  /\ to_number (VStr " 12.50 ") = 12.5%float
  /\ to_number (VStr "0x1F") = 31%float
  /\ to_number (VStr "") = 0%float
  /\ to_number VNull = 0%float
  /\ to_number (VBool true) = 1%float
  /\ PrimFloat.is_nan (to_number (VStr "abc")) = true
  /\ PrimFloat.is_nan (to_number (VStr "3px")) = true
  /\ PrimFloat.is_nan (to_number VUndefined) = true
  /\ PrimFloat.is_nan (to_number (VObj 1%positive)) = true.
Proof. vm_compute. repeat split. Qed.

Example parseInt_samples :
  parseInt (VStr "3") = 3%float
  /\ parseInt (VStr "3px") = 3%float
  /\ parseInt (VStr "-12.50") = (-12)%float
  /\ parseInt (VNum 2.5%float) = 2%float
  /\ parseInt (VNum 1e21%float) = 1%float
  /\ PrimFloat.is_nan (parseInt (VStr "abc")) = true
  /\ PrimFloat.is_nan (parseInt (VStr "")) = true
  /\ PrimFloat.is_nan (parseInt (VBool true)) = true
  /\ PrimFloat.is_nan (parseInt VUndefined) = true.
Proof. vm_compute. repeat split. Qed.

Example to_string_samples :
  to_string (VNum 3%float) = "3"
  /\ to_string (VNum 12.5%float) = "12.5"
  /\ to_string (VNum (to_number (VStr "0.1"))) = "0.1"
  /\ to_string (VNum 1e21%float) = "1e+21"
  /\ to_string (VNum (to_number (VStr "0.0000001"))) = "1e-7"
  /\ to_string (VNum (to_number (VStr "123456789012345678901"))) = "123456789012345680000"
  /\ to_string (VNum (-0)%float) = "0"
  /\ to_string (VNum JSNumber.NaN) = "NaN".
Proof. vm_compute. repeat split. Qed.

Example round_trips_samples :
  round_trips (VStr "3") = true
  /\ round_trips (VNum 2%float) = true
  /\ round_trips (VStr "abc") = false
  /\ round_trips (VStr "2.5") = false
  /\ round_trips (VBool true) = false
  /\ round_trips VNull = false
  /\ round_trips VUndefined = false.
Proof. vm_compute. repeat split. Qed.

(** ** Calls *)

Arguments call : simpl never.

Lemma call_not_callable depth f this args st :
  callable f = false ->
  call depth f this args st = (Throw (TypeError (to_string f ++ " is not a function")), st).
Proof.
  intros Hf. destruct depth; unfold call; rewrite Hf; reflexivity.
Qed.

Lemma this_get_buildEvent st :
  this_get "buildEvent" st = (Ret VUndefined, st).
Proof. reflexivity. Qed.

Lemma this_get_hasElementValueChanged st :
  this_get "hasElementValueChanged" st = (Ret (VMethod "hasElementValueChanged"), st).
Proof. reflexivity. Qed.

(** The body of [validationResult] stops at its first statement: the
    prototype has no member [buildEvent]. *)
Lemma validationResult_body depth args st :
  validationResult (call depth) args st
  = (Throw (TypeError "undefined is not a function"), st).
Proof.
  unfold validationResult, this_call, bind.
  rewrite this_get_buildEvent.
  rewrite call_not_callable by reflexivity. reflexivity.
Qed.

(** A call from outside enters the body of the method of that name. *)
Lemma method_validationResult_body depth args :
  method (S depth) "validationResult" args = validationResult (call depth) args.
Proof. reflexivity. Qed.

Lemma method_validateLive_body depth args :
  method (S depth) "validateLive" args = validateLive (call depth) args.
Proof. reflexivity. Qed.

Lemma method_validateLazy_body depth args :
  method (S depth) "validateLazy" args = validateLazy (call depth) args.
Proof. reflexivity. Qed.

Lemma method_validate_body depth args :
  method (S depth) "validate" args = validate (call depth) args.
Proof. reflexivity. Qed.

Lemma method_validationResult depth args st :
  method (S depth) "validationResult" args st
  = (Throw (TypeError "undefined is not a function"), st).
Proof.
  rewrite method_validationResult_body. apply validationResult_body.
Qed.

Lemma validateLive_body depth args st :
  validateLive (call (S depth)) args st
  = (Throw (TypeError "undefined is not a function"), st).
Proof.
  unfold validateLive, bind. rewrite this_get_hasElementValueChanged. simpl.
  apply method_validationResult.
Qed.

Lemma validateLazy_body depth args st :
  validateLazy (call (S depth)) args st
  = (Throw (TypeError "undefined is not a function"), st).
Proof.
  unfold validateLazy, bind. rewrite this_get_hasElementValueChanged. simpl.
  apply method_validationResult.
Qed.

Lemma buildEventObject_raises args st :
  exists e, buildEventObject args st = (Throw e, st).
Proof.
  unfold buildEventObject, bind, global.
  destruct (globals st !! "message") as [m|]; [|eauto].
  destruct (truthy m); simpl; eauto.
Qed.

(** ** Validation dispatch *)

(** C1. A validation-notification cycle raises no exception, whatever its
    arguments and the configuration: the code does not do this. Every call
    of [validationResult] raises a TypeError at its first statement, which
    calls the missing member [buildEvent]; the event construction itself,
    [buildEventObject], raises on every input too. *)
Theorem validationResult_always_raises (depth : nat) (args : list value) (st : state) :
  method (S depth) "validationResult" args st
  = (Throw (TypeError "undefined is not a function"), st)
  /\ exists e, buildEventObject args st = (Throw e, st).
Proof.
  split; [apply method_validationResult | apply buildEventObject_raises].
Qed.

(** C2. With a callback configured for the outcome of the cycle,
    [validationResult] invokes it once and returns its result: the code does
    not do this. The call raises before anything is sent or invoked: no
    callback runs, and the result of the callback is not returned. *)
Theorem validationResult_never_invokes_callback
    (depth : nat) (st : state) (valid : bool) (msg ctx : value)
    (cb : fn_id) (r : value) :
  read (this_config st) (callback_key valid) = VFun cb ->
  fns st !! cb = Some (User r) ->
  let res := method (S depth) "validationResult" [VBool valid; msg; ctx] st in
  res.1 = Throw (TypeError "undefined is not a function")
  /\ res.1 <> Ret r
  /\ calls res.2 = calls st
  /\ triggered res.2 = triggered st.
Proof.
  intros _ _ res. subst res. rewrite method_validationResult. simpl.
  repeat split; discriminate.
Qed.

Lemma validationResult_never_invokes_callback_witness :
  let res := method 1 "validationResult" [VBool true; VUndefined; VUndefined] callback_page in
  res.1 = Throw (TypeError "undefined is not a function")
  /\ res.1 <> Ret (VBool true)
  /\ calls res.2 = calls callback_page
  /\ triggered res.2 = triggered callback_page.
Proof.
  apply (validationResult_never_invokes_callback 0 callback_page true VUndefined VUndefined
           1%positive (VBool true));
    vm_compute; reflexivity.
Defined.

(** C3. When an event fires while the field holds the last recorded value,
    [validateLive] and [validateLazy] do nothing more: the code does not do
    this. Their guard compares the method [hasElementValueChanged] itself
    with [false], which never holds, so both handlers go on to
    [validationResult] and raise, as they do when the value has changed. *)
Theorem handlers_do_not_short_circuit
    (depth : nat) (st : state) (n : node_id) (ns : list node_id) (nd : node) (ev : value) :
  jq_element (self st) = n :: ns ->
  document st !! n = Some nd ->
  elementLastValue (self st) = VStr (node_value nd) ->
  method (S (S depth)) "validateLive" [ev] st
  = (Throw (TypeError "undefined is not a function"), st)
  /\ method (S (S depth)) "validateLazy" [ev] st
     = (Throw (TypeError "undefined is not a function"), st).
Proof.
  intros _ _ _. split.
  - rewrite method_validateLive_body. apply validateLive_body.
  - rewrite method_validateLazy_body. apply validateLazy_body.
Qed.

Lemma handlers_do_not_short_circuit_witness :
  method 2 "validateLive" [VUndefined] attached_page
  = (Throw (TypeError "undefined is not a function"), attached_page)
  /\ method 2 "validateLazy" [VUndefined] attached_page
     = (Throw (TypeError "undefined is not a function"), attached_page).
Proof.
  apply (handlers_do_not_short_circuit 0 attached_page 1%positive [] (Node "12.5" VUndefined) VUndefined);
    reflexivity.
Defined.

(** The same through the DOM: a [blur] on the field right after
    [$(field).numeric()], its text unchanged, raises out of the handler. *)
Example blur_on_unchanged_field_raises :
  fire 3 1%positive "blur" VUndefined attached_page
  = (Throw (TypeError "undefined is not a function"), attached_page).
Proof. vm_compute. reflexivity. Qed.

(** The part of C4 on an instance without an element: [validate()] returns
    the instance and changes nothing. *)
Lemma validate_unattached (depth : nat) (st : state) :
  element (self st) = VUndefined ->
  method (S depth) "validate" [] st = (Ret VThis, st).
Proof.
  intros He. rewrite method_validate_body.
  unfold validate, bind. simpl. rewrite He. reflexivity.
Qed.

(** C4. On an initialised instance [validate()] runs the live check, then
    the lazy check, and returns the instance: the code does not do this. With
    an element attached, [validate()] raises the TypeError of
    [validationResult] from inside [validateLive]; the lazy check is not
    reached and nothing is returned. *)
Theorem validate_attached_raises (depth : nat) (st : state) :
  strict_eq (element (self st)) VUndefined = false ->
  method (S (S (S depth))) "validate" [] st
  = (Throw (TypeError "undefined is not a function"), st).
Proof.
  intros He. rewrite method_validate_body.
  unfold validate, bind. simpl. rewrite He. simpl.
  change (this_call (call (S (S depth))) "validateLive" [] st)
    with (method (S (S depth)) "validateLive" [] st).
  rewrite method_validateLive_body, validateLive_body. reflexivity.
Qed.

Lemma validate_attached_raises_witness :
  method 3 "validate" [] attached_page
  = (Throw (TypeError "undefined is not a function"), attached_page).
Proof.
  apply (validate_attached_raises 0 attached_page). reflexivity.
Defined.

(** ** Configuration resolution *)

Lemma bind_ret {A B : Type} (c : M A) (k : A -> M B) (st st' : state) (a : A) :
  c st = (Ret a, st') -> bind c k st = k a st'.
Proof. intros H. unfold bind. by rewrite H. Qed.

Lemma read_insert (k k' : string) (v : value) (p : gmap string value) :
  read (<[k := v]> p) k' = if String.eqb k k' then v else read p k'.
Proof.
  unfold read. destruct (String.eqb_spec k k') as [->|Hne].
  - by rewrite lookup_insert_eq.
  - by rewrite lookup_insert_ne.
Qed.

Lemma read_empty (k : string) : read ∅ k = VUndefined.
Proof. unfold read. by rewrite lookup_empty. Qed.

Lemma read_copy_defined (t src : gmap string value) (k : string) :
  read (copy_defined t src) k
  = if is_undefined (read src k) then read t k else read src k.
Proof.
  unfold copy_defined, read.
  destruct (src !! k) as [v|] eqn:Hs; simpl.
  - destruct (is_undefined v) eqn:Hv.
    + rewrite lookup_union_r; [done|].
      apply map_lookup_filter_None. right. intros x Hx. simpl.
      rewrite Hs in Hx. injection Hx as <-. rewrite Hv. discriminate.
    + erewrite lookup_union_Some_l; [done|].
      apply map_lookup_filter_Some. split; [done|]. simpl. done.
  - rewrite lookup_union_r; [done|].
    apply map_lookup_filter_None. left. done.
Qed.

Lemma first_defined_undefined (v : value) :
  is_undefined v = true -> v = VUndefined.
Proof. destruct v; simpl; congruence. Qed.

(** The merge reads, for every field, the first defined value among the
    element's, the caller's and the default one. *)
Lemma read_merged (st : state) (D : gmap string value) (f : string) :
  heap st !! defaults_loc = Some D ->
  read (merged st) f
  = first_defined [read (enumerable (heap st) (metadata (self st))) f;
                   read (enumerable (heap st) (options (self st))) f;
                   read D f].
Proof.
  intros HD. unfold merged. simpl.
  rewrite !read_copy_defined, read_empty. unfold props_at. rewrite HD. simpl.
  destruct (is_undefined (read (enumerable (heap st) (metadata (self st))) f)); [|done].
  destruct (is_undefined (read (enumerable (heap st) (options (self st))) f)); [|done].
  destruct (is_undefined (read D f)) eqn:Hd; [|done].
  done.
Qed.

(** *** The statements of [mergeConfiguration], one by one *)

Section Steps.

Variables (st : state) (c : loc) (D : gmap string value).
Hypothesis defaults_allocated : heap st !! defaults_loc = Some D.
Hypothesis config_is_new : c <> defaults_loc.

Lemma config_get_with (p : gmap string value) (name : string) :
  config_get name (with_config st c p) = (Ret (read p name), with_config st c p).
Proof.
  unfold config_get, bind, get_prop, gets. simpl.
  unfold props_at. by rewrite lookup_insert_eq.
Qed.

Lemma defaults_get_with (p : gmap string value) (name : string) :
  defaults_get name (with_config st c p) = (Ret (read D name), with_config st c p).
Proof.
  unfold defaults_get, bind, get_prop, gets. simpl.
  unfold props_at. rewrite lookup_insert_ne by done.
  by rewrite defaults_allocated.
Qed.

Lemma config_set_with (p : gmap string value) (name : string) (v : value) :
  config_set name v (with_config st c p)
  = (Ret tt, with_config st c (<[name := v]> p)).
Proof.
  unfold config_set, bind, set_prop, modify. simpl.
  unfold with_config, set_heap, props_at. simpl.
  by rewrite lookup_insert_eq, insert_insert_eq.
Qed.

Lemma reset_unless_boolean_with (p : gmap string value) (name : string) :
  reset_unless_boolean name (with_config st c p)
  = (Ret tt, with_config st c (reset_boolean D name p)).
Proof.
  unfold reset_unless_boolean, reset_boolean.
  rewrite (bind_ret _ _ _ _ _ (config_get_with p name)).
  destruct (negb (String.eqb (typeof (read p name)) "boolean"));
    unfold when; [|done].
  rewrite (bind_ret _ _ _ _ _ (defaults_get_with p name)).
  apply config_set_with.
Qed.

Lemma clear_unless_function_with (p : gmap string value) (name : string) :
  clear_unless_function name (with_config st c p)
  = (Ret tt, with_config st c (clear_function name p)).
Proof.
  unfold clear_unless_function, clear_function.
  rewrite (bind_ret _ _ _ _ _ (config_get_with p name)).
  destruct (negb (String.eqb (typeof (read p name)) "function"));
    unfold when; [|done].
  apply config_set_with.
Qed.

Lemma reset_invalid_decimal_with (p : gmap string value) :
  reset_invalid_decimal (with_config st c p)
  = (Ret tt, with_config st c (reset_decimal D p)).
Proof.
  unfold reset_invalid_decimal, reset_decimal.
  rewrite (bind_ret _ _ _ _ _ (config_get_with p "decimal")).
  destruct (strict_eq (read p "decimal") (VBool false)
            || (String.eqb (typeof (read p "decimal")) "string"
                && negb (length_is (read p "decimal") 1)));
    unfold when; [|done].
  rewrite (bind_ret _ _ _ _ _ (defaults_get_with p "decimal")).
  apply config_set_with.
Qed.

Lemma default_western_decimal_with (p : gmap string value) :
  default_western_decimal (with_config st c p)
  = (Ret tt, with_config st c (western_decimal p)).
Proof.
  unfold default_western_decimal, western_decimal.
  rewrite (bind_ret _ _ _ _ _ (config_get_with p "decimal")).
  destruct (negb (String.eqb (typeof (read p "decimal")) "string"));
    unfold when; [|done].
  apply config_set_with.
Qed.

Lemma coerce_decimalPlaces_with (p : gmap string value) :
  coerce_decimalPlaces (with_config st c p)
  = (Ret tt, with_config st c (resolve_decimalPlaces D p)).
Proof.
  unfold coerce_decimalPlaces, resolve_decimalPlaces.
  rewrite (bind_ret _ _ _ _ _ (config_get_with p "decimalPlaces")).
  rewrite (bind_ret _ _ _ _ _ (defaults_get_with p "decimalPlaces")).
  destruct (negb (strict_eq (read p "decimalPlaces") (read D "decimalPlaces"))
            && negb (JSNumber.eqb (to_number (read p "decimalPlaces"))
                                  (parseInt (read p "decimalPlaces")))).
  - rewrite (bind_ret _ _ _ _ _ (defaults_get_with p "decimalPlaces")).
    apply config_set_with.
  - erewrite bind_ret; [apply config_set_with|].
    by rewrite (bind_ret _ _ _ _ _ (config_get_with p "decimalPlaces")).
Qed.

End Steps.

Lemma merge_sources_spec (st : state) :
  merge_sources st = (Ret tt, with_config st (fresh (dom (heap st))) (merged st)).
Proof. reflexivity. Qed.

Lemma fresh_not_allocated (st : state) (l : loc) (o : gmap string value) :
  heap st !! l = Some o -> fresh (dom (heap st)) <> l.
Proof.
  intros Hl Heq. apply (is_fresh (dom (heap st))).
  rewrite Heq. apply elem_of_dom. eauto.
Qed.

(** [mergeConfiguration] never raises: it allocates the object of
    [this.config] and leaves in it the resolved properties. *)
Lemma mergeConfiguration_spec (st : state) (D : gmap string value) (args : list value) :
  heap st !! defaults_loc = Some D ->
  mergeConfiguration args st
  = (Ret VUndefined,
     with_config st (fresh (dom (heap st))) (resolve D (merged st))).
Proof.
  intros HD.
  pose proof (fresh_not_allocated st defaults_loc D HD) as Hc.
  unfold mergeConfiguration, resolve.
  rewrite (bind_ret _ _ _ _ _ (merge_sources_spec st)).
  rewrite (bind_ret _ _ _ _ _ (reset_unless_boolean_with st _ D HD Hc _ _)).
  rewrite (bind_ret _ _ _ _ _ (reset_invalid_decimal_with st _ D HD Hc _)).
  rewrite (bind_ret _ _ _ _ _ (default_western_decimal_with st _ _)).
  rewrite (bind_ret _ _ _ _ _ (coerce_decimalPlaces_with st _ D HD Hc _)).
  rewrite (bind_ret _ _ _ _ _ (reset_unless_boolean_with st _ D HD Hc _ _)).
  rewrite (bind_ret _ _ _ _ _ (reset_unless_boolean_with st _ D HD Hc _ _)).
  rewrite (bind_ret _ _ _ _ _ (clear_unless_function_with st _ _ _)).
  rewrite (bind_ret _ _ _ _ _ (clear_unless_function_with st _ _ _)).
  reflexivity.
Qed.

(** *** Reading the resolved properties *)

Lemma read_reset_boolean (D p : gmap string value) (name k : string) :
  read (reset_boolean D name p) k
  = if String.eqb name k && negb (String.eqb (typeof (read p name)) "boolean")
    then read D name else read p k.
Proof.
  unfold reset_boolean.
  destruct (negb (String.eqb (typeof (read p name)) "boolean")).
  - rewrite read_insert. by destruct (String.eqb name k).
  - by rewrite andb_false_r.
Qed.

Lemma read_clear_function (p : gmap string value) (name k : string) :
  read (clear_function name p) k
  = if String.eqb name k && negb (String.eqb (typeof (read p name)) "function")
    then VUndefined else read p k.
Proof.
  unfold clear_function.
  destruct (negb (String.eqb (typeof (read p name)) "function")).
  - rewrite read_insert. by destruct (String.eqb name k).
  - by rewrite andb_false_r.
Qed.

Lemma read_reset_boolean_other (D p : gmap string value) (name k : string) :
  String.eqb name k = false ->
  read (reset_boolean D name p) k = read p k.
Proof. intros Hk. by rewrite read_reset_boolean, Hk. Qed.

Lemma read_clear_function_other (p : gmap string value) (name k : string) :
  String.eqb name k = false ->
  read (clear_function name p) k = read p k.
Proof. intros Hk. by rewrite read_clear_function, Hk. Qed.

Lemma read_reset_decimal (D p : gmap string value) (k : string) :
  read (reset_decimal D p) k
  = let v := read p "decimal" in
    if String.eqb "decimal" k
       && (strict_eq v (VBool false)
           || (String.eqb (typeof v) "string" && negb (length_is v 1)))
    then read D "decimal" else read p k.
Proof.
  unfold reset_decimal. cbv zeta.
  destruct (_ || _).
  - rewrite read_insert. by destruct (String.eqb "decimal" k).
  - by rewrite andb_false_r.
Qed.

Lemma read_western_decimal (p : gmap string value) (k : string) :
  read (western_decimal p) k
  = if String.eqb "decimal" k && negb (String.eqb (typeof (read p "decimal")) "string")
    then VStr "." else read p k.
Proof.
  unfold western_decimal.
  destruct (negb _).
  - rewrite read_insert. by destruct (String.eqb "decimal" k).
  - by rewrite andb_false_r.
Qed.

Lemma read_resolve_decimalPlaces (D p : gmap string value) (k : string) :
  read (resolve_decimalPlaces D p) k
  = if String.eqb "decimalPlaces" k
    then (if negb (strict_eq (read p "decimalPlaces") (read D "decimalPlaces"))
             && negb (round_trips (read p "decimalPlaces"))
          then read D "decimalPlaces"
          else VNum (to_number (read p "decimalPlaces")))
    else read p k.
Proof. unfold resolve_decimalPlaces. by rewrite read_insert. Qed.

Lemma read_reset_decimal_other (D p : gmap string value) (k : string) :
  String.eqb "decimal" k = false ->
  read (reset_decimal D p) k = read p k.
Proof. intros Hk. rewrite read_reset_decimal. cbv zeta. by rewrite Hk. Qed.

Lemma read_western_decimal_other (p : gmap string value) (k : string) :
  String.eqb "decimal" k = false ->
  read (western_decimal p) k = read p k.
Proof. intros Hk. by rewrite read_western_decimal, Hk. Qed.

Lemma read_resolve_decimalPlaces_same (D p : gmap string value) :
  read (resolve_decimalPlaces D p) "decimalPlaces"
  = if negb (strict_eq (read p "decimalPlaces") (read D "decimalPlaces"))
       && negb (round_trips (read p "decimalPlaces"))
    then read D "decimalPlaces"
    else VNum (to_number (read p "decimalPlaces")).
Proof. exact (read_resolve_decimalPlaces D p "decimalPlaces"). Qed.

Lemma read_resolve_decimalPlaces_other (D p : gmap string value) (k : string) :
  String.eqb "decimalPlaces" k = false ->
  read (resolve_decimalPlaces D p) k = read p k.
Proof. intros Hk. by rewrite read_resolve_decimalPlaces, Hk. Qed.

Lemma read_defaults :
  read defaults "negative" = VBool true
  /\ read defaults "decimal" = VBool true
  /\ read defaults "decimalPlaces" = VUndefined
  /\ read defaults "delegateRemoval" = VBool true
  /\ read defaults "delegateRealtime" = VBool true.
Proof. vm_compute. auto. Qed.

(** The resolved [decimal]: with the defaults of the source it is what the
    specification says. *)
Lemma read_resolve_decimal (p : gmap string value) :
  read (resolve defaults p) "decimal" = decimal_as_specified (read p "decimal").
Proof.
  destruct read_defaults as (_ & Hd & _).
  unfold resolve.
  rewrite !read_clear_function_other, !read_reset_boolean_other,
    read_resolve_decimalPlaces_other by reflexivity.
  rewrite read_western_decimal, !read_reset_decimal. cbv zeta.
  rewrite read_reset_boolean_other by reflexivity.
  rewrite Hd.
  destruct (read p "decimal") as [| |[|]|x|s|l|f|m|n|ns|]; try reflexivity.
  simpl. destruct (String.length s =? 1)%nat; reflexivity.
Qed.

Lemma read_resolve_decimalPlaces_field (D p : gmap string value) :
  read (resolve D p) "decimalPlaces"
  = let v := read p "decimalPlaces" in
    if negb (strict_eq v (read D "decimalPlaces")) && negb (round_trips v)
    then read D "decimalPlaces" else VNum (to_number v).
Proof.
  unfold resolve.
  rewrite !read_clear_function_other, !read_reset_boolean_other by reflexivity.
  rewrite read_resolve_decimalPlaces_same.
  rewrite read_western_decimal_other, read_reset_decimal_other,
    read_reset_boolean_other by reflexivity.
  reflexivity.
Qed.

Lemma strict_eq_undefined (v : value) :
  strict_eq v VUndefined = is_undefined v.
Proof. by destruct v. Qed.

(** Reading a field of [this.config] after [mergeConfiguration]. *)
Lemma resolved_field (st : state) (D : gmap string value) (args : list value) (f : string) :
  heap st !! defaults_loc = Some D ->
  bind (mergeConfiguration args) (fun _ => config_get f) st
  = (Ret (read (resolve D (merged st)) f),
     with_config st (fresh (dom (heap st))) (resolve D (merged st))).
Proof.
  intros HD.
  rewrite (bind_ret _ _ _ _ _ (mergeConfiguration_spec st D args HD)).
  apply config_get_with.
Qed.

(** C5, as stated, fails: a caller who passes [{decimal: undefined}] has
    the field present in the caller's object, and the merged value is still
    the default [true]. *)
Lemma merge_precedence_as_stated_fails :
  ~ merge_follows_stated_precedence undefined_option_page "decimal".
Proof.
  unfold merge_follows_stated_precedence. vm_compute. discriminate.
Qed.

(** C5, amended. For every field, the value merged from the defaults [D],
    the caller's object [U] and the element's attribute [M] is the value in
    [M] when [M] has the field with a value other than [undefined],
    otherwise the value in [U] when [U] has it with a value other than
    [undefined], otherwise the value in [D]. *)
Theorem merge_precedence (st : state) (D : gmap string value) (f : string) :
  heap st !! defaults_loc = Some D ->
  (bind merge_sources (fun _ => config_get f) st).1
  = Ret (first_defined [read (enumerable (heap st) (metadata (self st))) f;
                        read (enumerable (heap st) (options (self st))) f;
                        read D f]).
Proof.
  intros HD.
  rewrite (bind_ret _ _ _ _ _ (merge_sources_spec st)).
  rewrite (config_get_with st). simpl fst.
  by rewrite (read_merged st D f HD).
Qed.

Lemma merge_precedence_witness :
  (bind merge_sources (fun _ => config_get "decimal") undefined_option_page).1
  = Ret (first_defined
           [read (enumerable (heap undefined_option_page)
                    (metadata (self undefined_option_page))) "decimal";
            read (enumerable (heap undefined_option_page)
                    (options (self undefined_option_page))) "decimal";
            read defaults "decimal"]).
Proof.
  apply (merge_precedence undefined_option_page defaults "decimal").
  reflexivity.
Defined.

(** Where no source holds [undefined] in the field, the amended order is
    the stated one. *)
Lemma stated_precedence_when_defined (D U M : gmap string value) (f : string) :
  (forall v, M !! f = Some v -> is_undefined v = false) ->
  (forall v, U !! f = Some v -> is_undefined v = false) ->
  first_defined [read M f; read U f; read D f] = precedence_as_stated D U M f.
Proof.
  intros HM HU. unfold precedence_as_stated, read. simpl.
  destruct (M !! f) as [m|] eqn:Hm; simpl.
  - by rewrite (HM m).
  - destruct (U !! f) as [u|] eqn:Hu; simpl.
    + by rewrite (HU u).
    + destruct (D !! f) as [d|]; simpl; [|done].
      destruct (is_undefined d) eqn:Hd; [|done].
      symmetry. by apply first_defined_undefined.
Qed.

(** C6. After [mergeConfiguration] every field of the configuration holds a
    value of its declared type, [decimalPlaces] an integer or the unlimited
    marker [undefined]: the code does not do this. When no [decimalPlaces]
    is supplied, the merged value is [undefined] and the code stores
    [+undefined], which is [NaN]: neither an integer nor [undefined]. *)
Theorem decimalPlaces_unsupplied_is_NaN (st : state) (args : list value) :
  heap st !! defaults_loc = Some defaults ->
  read (merged st) "decimalPlaces" = VUndefined ->
  exists n : JSNumber.number,
    (bind (mergeConfiguration args) (fun _ => config_get "decimalPlaces") st).1
    = Ret (VNum n)
    /\ PrimFloat.is_nan n = true.
Proof.
  intros HD Hv. rewrite (resolved_field st defaults args _ HD). simpl fst.
  rewrite read_resolve_decimalPlaces_field. cbv zeta. rewrite Hv.
  destruct read_defaults as (_ & _ & -> & _).
  exists JSNumber.NaN. split; reflexivity.
Qed.

Lemma decimalPlaces_unsupplied_is_NaN_witness :
  exists n : JSNumber.number,
    (bind (mergeConfiguration []) (fun _ => config_get "decimalPlaces")
          (Numeric (VNode 1%positive) VUndefined page).2).1
    = Ret (VNum n)
    /\ PrimFloat.is_nan n = true.
Proof.
  apply (decimalPlaces_unsupplied_is_NaN (Numeric (VNode 1%positive) VUndefined page).2 []);
    reflexivity.
Defined.

(** The part of C6 that holds: the boolean options are booleans, [decimal]
    is a string of one character, a callback is a function or [undefined],
    and [decimalPlaces] is [undefined] or a number. *)
Lemma resolved_fields_typed (p : gmap string value) :
  let r := resolve defaults p in
  typeof (read r "negative") = "boolean"
  /\ typeof (read r "delegateRemoval") = "boolean"
  /\ typeof (read r "delegateRealtime") = "boolean"
  /\ (exists s, read r "decimal" = VStr s /\ String.length s = 1%nat)
  /\ (typeof (read r "callbackInvalidEntry") = "function"
      \/ read r "callbackInvalidEntry" = VUndefined)
  /\ (typeof (read r "callbackValidEntry") = "function"
      \/ read r "callbackValidEntry" = VUndefined)
  /\ (read r "decimalPlaces" = VUndefined
      \/ exists n, read r "decimalPlaces" = VNum n).
Proof.
  destruct read_defaults as (Hn & Hd & Hp & Hrm & Hrt).
  cbv zeta. repeat split.
  - unfold resolve.
    rewrite !read_clear_function_other, !read_reset_boolean_other,
      read_resolve_decimalPlaces_other, read_western_decimal_other,
      read_reset_decimal_other by reflexivity.
    rewrite read_reset_boolean, Hn. rewrite String.eqb_refl. cbv [andb].
    destruct (String.eqb (typeof (read p "negative")) "boolean") eqn:H; [|done].
    by apply String.eqb_eq.
  - unfold resolve.
    rewrite !read_clear_function_other, read_reset_boolean_other by reflexivity.
    rewrite read_reset_boolean, Hrm. rewrite String.eqb_refl. cbv [andb].
    match goal with |- context [negb (String.eqb (typeof ?v) "boolean")] =>
      destruct (String.eqb (typeof v) "boolean") eqn:H end; [|done].
    by apply String.eqb_eq.
  - unfold resolve.
    rewrite !read_clear_function_other by reflexivity.
    rewrite read_reset_boolean, Hrt. rewrite String.eqb_refl. cbv [andb].
    match goal with |- context [negb (String.eqb (typeof ?v) "boolean")] =>
      destruct (String.eqb (typeof v) "boolean") eqn:H end; [|done].
    by apply String.eqb_eq.
  - rewrite read_resolve_decimal.
    destruct (read p "decimal") as [| |[|]|x|s|l|f|m|n|ns|];
      try (exists "."; split; reflexivity).
    simpl. destruct (String.length s =? 1)%nat eqn:Hs.
    + exists s. split; [done|]. by apply Nat.eqb_eq.
    + exists ".". split; reflexivity.
  - unfold resolve.
    rewrite read_clear_function_other by reflexivity.
    rewrite read_clear_function. rewrite String.eqb_refl. cbv [andb].
    match goal with |- context [negb (String.eqb (typeof ?v) "function")] =>
      destruct (String.eqb (typeof v) "function") eqn:H end; [|by right].
    left. by apply String.eqb_eq.
  - unfold resolve.
    rewrite read_clear_function. rewrite String.eqb_refl. cbv [andb].
    match goal with |- context [negb (String.eqb (typeof ?v) "function")] =>
      destruct (String.eqb (typeof v) "function") eqn:H end; [|by right].
    left. by apply String.eqb_eq.
  - rewrite read_resolve_decimalPlaces_field. cbv zeta. rewrite Hp.
    destruct (_ && _); [by left | right; eauto].
Qed.



(** [$(field).numeric({decimal: "#", decimalPlaces: "3"})] on the sample
    page. *)
Example numeric_with_options :
  let st := (method 4 "init" [] places_page).2 in
  read (this_config st) "decimal" = VStr "#"
  /\ read (this_config st) "decimalPlaces" = VNum 3%float
  /\ read (this_config st) "negative" = VBool true
  /\ elementLastValue (self st) = VStr "12.5"
  /\ length (bindings st) = 5%nat.
Proof. vm_compute. repeat split. Qed.

(** *** Integers among the numbers

    An integer below [2^53] in magnitude is a binary64, and the rounding of
    [of_decimal] returns it. *)












(** *** The coercions on texts of digits *)




























(** C10. [mergeConfiguration] writes to the new object of [this.config]
    only: the shared [defaults] object, and every other object there was,
    is unchanged, so any other instance reads the same defaults after as
    before. *)
Theorem mergeConfiguration_preserves_defaults
    (st : state) (D : gmap string value) (args : list value) :
  heap st !! defaults_loc = Some D ->
  let st' := (mergeConfiguration args st).2 in
  heap st' !! defaults_loc = Some D
  /\ (forall l o, heap st !! l = Some o -> heap st' !! l = Some o)
  /\ (forall (other : instance) (name : string),
        (defaults_get name (set_self other st')).1
        = (defaults_get name (set_self other st)).1).
Proof.
  intros HD st'.
  assert (Hkeep : forall l o, heap st !! l = Some o -> heap st' !! l = Some o).
  { intros l o Hl. subst st'. rewrite (mergeConfiguration_spec st D args HD).
    simpl. rewrite lookup_insert_ne; [done|].
    by apply (fresh_not_allocated st l o). }
  split; [by apply Hkeep|]. split; [exact Hkeep|].
  intros other name. unfold defaults_get, bind, get_prop, gets. simpl.
  unfold props_at. by rewrite (Hkeep _ _ HD), HD.
Qed.

Lemma mergeConfiguration_preserves_defaults_witness :
  let st' := (mergeConfiguration [] places_page).2 in
  heap st' !! defaults_loc = Some defaults
  /\ (forall l o, heap places_page !! l = Some o -> heap st' !! l = Some o)
  /\ (forall (other : instance) (name : string),
        (defaults_get name (set_self other st')).1
        = (defaults_get name (set_self other places_page)).1).
Proof.
  apply (mergeConfiguration_preserves_defaults places_page defaults []).
  reflexivity.
Defined.

(** ** Change detection *)

Lemma element_val_bound (st : state) (n : node_id) (ns : list node_id) :
  jq_element (self st) = n :: ns ->
  element_val st = (Ret (VStr (text_of st n)), st).
Proof.
  intros Hn. unfold element_val, bind, gets. by rewrite Hn.
Qed.

Lemma this_get_elementLastValue (st : state) :
  this_get "elementLastValue" st = (Ret (elementLastValue (self st)), st).
Proof. reflexivity. Qed.

(** On a bound instance the check compares the recorded value with the
    text of the field and records the text when they differ. *)
Lemma hasElementValueChanged_bound (st : state) (n : node_id) (ns : list node_id)
    (args : list value) :
  jq_element (self st) = n :: ns ->
  hasElementValueChanged args st
  = if strict_eq (elementLastValue (self st)) (VStr (text_of st n))
    then (Ret (VBool false), st)
    else (Ret (VBool true),
          set_self (set_elementLastValue (VStr (text_of st n)) (self st)) st).
Proof.
  intros Hn.
  pose proof (element_val_bound st n ns Hn) as He.
  unfold hasElementValueChanged.
  rewrite (bind_ret _ _ _ _ _ (this_get_elementLastValue st)).
  destruct (strict_eq (elementLastValue (self st)) VUndefined) eqn:Hu.
  - rewrite (first_defined_undefined (elementLastValue (self st)))
      by (by rewrite <- strict_eq_undefined).
    cbn [strict_eq].
    rewrite (bind_ret _ _ _ _ _ He). reflexivity.
  - rewrite (bind_ret _ _ _ _ _ He).
    destruct (strict_eq (elementLastValue (self st)) (VStr (text_of st n)));
      [reflexivity|].
    rewrite (bind_ret _ _ _ _ _ He). reflexivity.
Qed.

(** C9. On a bound instance, two checks in succession with the field left
    alone answer [false] the second time; when the text changes between
    two checks, the second answers [true] and records the new text. *)
Theorem hasElementValueChanged_detects_change
    (st : state) (n : node_id) (ns : list node_id) :
  jq_element (self st) = n :: ns ->
  let st1 := (hasElementValueChanged [] st).2 in
  (hasElementValueChanged [] st1).1 = Ret (VBool false)
  /\ forall s : string,
       s <> text_of st1 n ->
       let r := hasElementValueChanged [] (type_text n s st1) in
       r.1 = Ret (VBool true) /\ elementLastValue (self r.2) = VStr s.
Proof.
  intros Hn st1.
  assert (H1 : jq_element (self st1) = n :: ns
               /\ elementLastValue (self st1) = VStr (text_of st1 n)).
  { subst st1. rewrite (hasElementValueChanged_bound st n ns [] Hn).
    destruct (strict_eq (elementLastValue (self st)) (VStr (text_of st n))) eqn:He.
    - simpl. split; [done|].
      destruct (elementLastValue (self st)); try discriminate.
      simpl in He. apply String.eqb_eq in He. by subst.
    - simpl. split; [done|]. reflexivity. }
  destruct H1 as [Hn1 Hl1]. split.
  - rewrite (hasElementValueChanged_bound st1 n ns [] Hn1), Hl1. simpl.
    by rewrite String.eqb_refl.
  - intros s Hs r. subst r.
    assert (Ht : text_of (type_text n s st1) n = s).
    { unfold text_of, type_text. simpl. by rewrite lookup_insert_eq. }
    rewrite (hasElementValueChanged_bound (type_text n s st1) n ns []) by exact Hn1.
    rewrite Ht. simpl. rewrite Hl1. simpl.
    destruct (String.eqb_spec (text_of st1 n) s) as [Heq|Hne]; [by subst|].
    simpl. done.
Qed.

Lemma hasElementValueChanged_detects_change_witness :
  let st1 := (hasElementValueChanged [] attached_page).2 in
  (hasElementValueChanged [] st1).1 = Ret (VBool false)
  /\ forall s : string,
       s <> text_of st1 1%positive ->
       let r := hasElementValueChanged [] (type_text 1%positive s st1) in
       r.1 = Ret (VBool true) /\ elementLastValue (self r.2) = VStr s.
Proof.
  apply (hasElementValueChanged_detects_change attached_page 1%positive []).
  reflexivity.
Defined.

(** * Further properties of the code *)

(** ** The state after a check and after [init] *)

Lemma record_value_same (st : state) :
  record_value (elementLastValue (self st)) st = st.
Proof. destruct st as [[] ? ? ? ? ? ? ? ?]. reflexivity. Qed.

Lemma element_val_current (st : state) :
  element_val st = (Ret (current_val st), st).
Proof.
  unfold element_val, current_val, bind, gets.
  destruct (jq_element (self st)); reflexivity.
Qed.

Lemma strict_eq_current_val (st : state) (v : value) :
  strict_eq v (current_val st) = true -> v = current_val st.
Proof.
  unfold current_val. destruct (jq_element (self st)); destruct v; try discriminate.
  - reflexivity.
  - simpl. intros H. apply String.eqb_eq in H. by subst.
Qed.

Lemma hasElementValueChanged_spec (st : state) (args : list value) :
  hasElementValueChanged args st
  = (Ret (VBool (is_undefined (elementLastValue (self st))
                 || negb (strict_eq (elementLastValue (self st)) (current_val st)))),
     record_value (current_val st) st).
Proof.
  pose proof (element_val_current st) as He.
  unfold hasElementValueChanged.
  rewrite (bind_ret _ _ _ _ _ (this_get_elementLastValue st)).
  rewrite strict_eq_undefined.
  destruct (is_undefined (elementLastValue (self st))) eqn:Hu.
  - rewrite (bind_ret _ _ _ _ _ He). reflexivity.
  - rewrite (bind_ret _ _ _ _ _ He).
    destruct (strict_eq (elementLastValue (self st)) (current_val st)) eqn:Hs.
    + apply strict_eq_current_val in Hs. rewrite <- Hs.
      by rewrite record_value_same.
    + rewrite (bind_ret _ _ _ _ _ He). reflexivity.
Qed.

Lemma method_hasElementValueChanged_body depth args :
  method (S depth) "hasElementValueChanged" args = hasElementValueChanged args.
Proof. reflexivity. Qed.

Lemma method_mergeConfiguration_body depth args :
  method (S depth) "mergeConfiguration" args = mergeConfiguration args.
Proof. reflexivity. Qed.

Lemma method_bindEventReceivers_body depth args :
  method (S depth) "bindEventReceivers" args = bindEventReceivers (call depth) args.
Proof. reflexivity. Qed.

Lemma method_init_body depth args :
  method (S depth) "init" args = init (call depth) args.
Proof. reflexivity. Qed.

Lemma config_get_object (st : state) (name : string) (c : loc) :
  config (self st) = VObj c ->
  config_get name st = (Ret (read (this_config st) name), st).
Proof.
  intros Hc. unfold config_get, this_config.
  erewrite bind_ret; [|reflexivity]. unfold this_get. 
  rewrite Hc. reflexivity.
Qed.

Lemma bindEventReceivers_spec (depth : nat) (st : state) (c : loc) (args : list value) :
  config (self st) = VObj c ->
  bindEventReceivers (call (S depth)) args st = (Ret VThis, receivers_bound st).
Proof.
  intros Hc. unfold bindEventReceivers.
  change (this_call (call (S depth)) "hasElementValueChanged" [])
    with (method (S depth) "hasElementValueChanged" []).
  rewrite method_hasElementValueChanged_body.
  rewrite (bind_ret _ _ _ _ _ (hasElementValueChanged_spec st [])).
  set (st1 := record_value (current_val st) st).
  erewrite bind_ret; [|reflexivity].
  erewrite bind_ret; [|reflexivity].
  erewrite bind_ret; [|reflexivity].
  erewrite bind_ret; [|reflexivity].
  erewrite bind_ret; [|apply (config_get_object _ _ c); exact Hc].
  unfold receivers_bound, realtime_off. fold st1.
  change (this_config (set_bindings _ _)) with (this_config st).
  destruct (strict_eq (read (this_config st) "delegateRealtime") (VBool false)).
  - reflexivity.
  - erewrite bind_ret; [|reflexivity].
    erewrite bind_ret; [|reflexivity].
    erewrite bind_ret; [|reflexivity].
    reflexivity.
Qed.

Lemma init_spec (depth : nat) (st : state) (D : gmap string value) (args : list value) :
  heap st !! defaults_loc = Some D ->
  method (S (S (S depth))) "init" args st = (Ret VThis, initialised D st).
Proof.
  intros HD. rewrite method_init_body. unfold init.
  change (this_call (call (S (S depth))) "mergeConfiguration" [])
    with (method (S (S depth)) "mergeConfiguration" []).
  rewrite method_mergeConfiguration_body.
  rewrite (bind_ret _ _ _ _ _ (mergeConfiguration_spec st D [] HD)).
  change (this_call (call (S (S depth))) "bindEventReceivers" [])
    with (method (S (S depth)) "bindEventReceivers" []).
  rewrite method_bindEventReceivers_body.
  erewrite bind_ret; [|by eapply bindEventReceivers_spec].
  reflexivity.
Qed.

(** ** Initialisation *)

Lemma fresh_unused (st : state) : heap st !! fresh (dom (heap st)) = None.
Proof. apply not_elem_of_dom, is_fresh. Qed.

Lemma read_this_config_with (st : state) (c : loc) (p : gmap string value) (k : string) :
  read (this_config (with_config st c p)) k = read p k.
Proof. unfold this_config, with_config, props_at. simpl. by rewrite lookup_insert_eq. Qed.

(** X1. With the defaults object in place, on an instance constructed on a
    DOM element or on nothing, whose merged [decimalPlaces] is a primitive
    value, [init] returns the instance: [this.config] becomes an object
    that was not allocated before, [this.elementLastValue] becomes what
    [.val()] reads (the text of the field, or [undefined] without an
    element), every object there was is unchanged, no event is triggered
    and no callback is invoked. *)
Theorem init_returns_instance
    (depth : nat) (st : state) (D : gmap string value) (args : list value) :
  heap st !! defaults_loc = Some D ->
  on_element st = true ->
  primitive (read (merged st) "decimalPlaces") = true ->
  let r := method (S (S (S depth))) "init" args st in
  r.1 = Ret VThis
  /\ config (self r.2) = VObj (fresh (dom (heap st)))
  /\ heap st !! fresh (dom (heap st)) = None
  /\ elementLastValue (self r.2) = current_val st
  /\ (forall l o, heap st !! l = Some o -> heap r.2 !! l = Some o)
  /\ triggered r.2 = triggered st
  /\ calls r.2 = calls st.
Proof.
  intros HD _ _ r. subst r. rewrite (init_spec depth st D args HD).
  unfold initialised, receivers_bound.
  assert (Hkeep : forall l o, heap st !! l = Some o ->
            <[fresh (dom (heap st)) := resolve D (merged st)]> (heap st) !! l = Some o).
  { intros l o Hl. rewrite lookup_insert_ne; [done|].
    by apply (fresh_not_allocated st l o). }
  destruct (realtime_off _); simpl;
    repeat split; first [apply fresh_unused | exact Hkeep | reflexivity].
Qed.

Lemma read_resolve_boolean (p : gmap string value) (name : string) :
  name = "negative" \/ name = "delegateRemoval" \/ name = "delegateRealtime" ->
  read (resolve defaults p) name = boolean_or_true (read p name).
Proof.
  destruct read_defaults as (Hn & _ & _ & Hrm & Hrt).
  unfold resolve, boolean_or_true.
  intros [-> | [-> | ->]];
    rewrite ?read_clear_function_other, ?read_reset_boolean_other by reflexivity;
    rewrite ?read_resolve_decimalPlaces_other, ?read_western_decimal_other,
      ?read_reset_decimal_other by reflexivity;
    rewrite read_reset_boolean, String.eqb_refl; cbv [andb];
    rewrite ?read_clear_function_other, ?read_reset_boolean_other by reflexivity;
    rewrite ?read_resolve_decimalPlaces_other, ?read_western_decimal_other,
      ?read_reset_decimal_other by reflexivity;
    rewrite ?read_reset_boolean_other by reflexivity;
    rewrite ?Hn, ?Hrm, ?Hrt;
    match goal with |- context [String.eqb (typeof ?v) "boolean"] =>
      destruct (String.eqb (typeof v) "boolean") end; reflexivity.
Qed.


Lemma strict_eq_boolean_or_true (v : value) :
  strict_eq (boolean_or_true v) (VBool false) = strict_eq v (VBool false).
Proof. by destruct v as [| |[|]| | | | | | | |]. Qed.

(** The handlers [init] binds, with the defaults of the source. *)
Lemma initialised_handlers (st : state) :
  let st' := initialised defaults st in
  let ns := jq_element (self st) in
  let off := strict_eq (read (merged st) "delegateRealtime") (VBool false) in
  exists h h' : fn_id,
    fns st !! h = None
    /\ bindings st'
       = (bindings st ++ handlers ns ["change"; "blur"] (VFun h)
          ++ (if off then []
              else handlers ns ["keydown"; "keypress"; "keyup"] (VFun h')))%list
    /\ fns st' !! h = Some (Bound (VMethod "validateLazy") VThis [])
    /\ (off = false ->
        h <> h' /\ fns st !! h' = None
        /\ fns st' !! h' = Some (Bound (VMethod "validateLive") VThis [])).
Proof.
  intros st' ns off. subst st'.
  unfold initialised, receivers_bound, realtime_off.
  rewrite read_this_config_with, read_resolve_boolean by auto.
  rewrite strict_eq_boolean_or_true. fold off.
  set (h := fresh (dom (fns st))).
  set (f1 := <[h := Bound (VMethod "validateLazy") VThis []]> (fns st)).
  set (h' := fresh (dom f1)).
  assert (Hh : fns st !! h = None) by apply not_elem_of_dom, is_fresh.
  assert (Hh' : f1 !! h' = None) by apply not_elem_of_dom, is_fresh.
  assert (Hne : h <> h').
  { intros Heq. rewrite <- Heq in Hh'. unfold f1 in Hh'.
    by rewrite lookup_insert_eq in Hh'. }
  exists h, h'. split; [exact Hh|].
  destruct off; simpl.
  - split; [by rewrite app_nil_r|]. split; [apply lookup_insert_eq|]. discriminate.
  - split; [by rewrite <- app_assoc|]. split.
    + fold h. fold f1. fold h'. rewrite lookup_insert_ne by (intros Heq; by apply Hne).
      apply lookup_insert_eq.
    + intros _. split; [exact Hne|]. split.
      * unfold f1 in Hh'. by rewrite lookup_insert_ne in Hh'.
      * fold h. fold f1. fold h'. apply lookup_insert_eq.
Qed.


(** ** Resolution of the other options *)



Lemma round_trips_null_or_boolean (v : value) :
  null_or_boolean v = true -> round_trips v = false.
Proof.
  destruct v as [| |[|]| | | | | | | |]; try discriminate; intros _;
    vm_compute; reflexivity.
Qed.

(** X11. A [decimalPlaces] that is [null] or a boolean resolves to
    [undefined]: [false] too means no limit, and [true] is replaced by the
    default rather than kept. *)
Theorem decimalPlaces_of_other_types (st : state) (args : list value) :
  heap st !! defaults_loc = Some defaults ->
  null_or_boolean (read (merged st) "decimalPlaces") = true ->
  (bind (mergeConfiguration args) (fun _ => config_get "decimalPlaces") st).1
  = Ret VUndefined.
Proof.
  intros HD Hv. rewrite (resolved_field st defaults args _ HD). simpl fst.
  rewrite read_resolve_decimalPlaces_field. cbv zeta.
  destruct read_defaults as (_ & _ & -> & _).
  rewrite (round_trips_null_or_boolean _ Hv), strict_eq_undefined.
  by destruct (read (merged st) "decimalPlaces").
Qed.

(** X8. With the defaults the source ships and a merged [decimalPlaces]
    that is a primitive value, after [mergeConfiguration] the three boolean
    options are booleans, [decimal] is a string of one character, each
    callback is a function or [undefined], and [decimalPlaces] is
    [undefined] or a number. *)
Theorem configuration_fields_typed (st : state) (args : list value) :
  heap st !! defaults_loc = Some defaults ->
  primitive (read (merged st) "decimalPlaces") = true ->
  let field := fun name =>
    (bind (mergeConfiguration args) (fun _ => config_get name) st).1 in
  (exists b, field "negative" = Ret (VBool b))
  /\ (exists b, field "delegateRemoval" = Ret (VBool b))
  /\ (exists b, field "delegateRealtime" = Ret (VBool b))
  /\ (exists s, field "decimal" = Ret (VStr s) /\ String.length s = 1%nat)
  /\ (exists v, field "callbackInvalidEntry" = Ret v
                /\ (typeof v = "function" \/ v = VUndefined))
  /\ (exists v, field "callbackValidEntry" = Ret v
                /\ (typeof v = "function" \/ v = VUndefined))
  /\ (exists v, field "decimalPlaces" = Ret v
                /\ (v = VUndefined \/ typeof v = "number")).
Proof.
  intros HD _ field.
  assert (Hf : forall name, field name = Ret (read (resolve defaults (merged st)) name)).
  { intros name. unfold field. by rewrite (resolved_field st defaults args _ HD). }
  destruct (resolved_fields_typed (merged st))
    as (Hn & Hrm & Hrt & (s & Hs & Hl) & Hci & Hcv & Hp).
  assert (Hbool : forall v, typeof v = "boolean" -> exists b, v = VBool b).
  { intros v Hv. destruct v; try discriminate. eauto. }
  rewrite !Hf. repeat split.
  - destruct (Hbool _ Hn) as [b ->]. eauto.
  - destruct (Hbool _ Hrm) as [b ->]. eauto.
  - destruct (Hbool _ Hrt) as [b ->]. eauto.
  - exists s. by rewrite Hs.
  - eauto.
  - eauto.
  - eexists. split; [reflexivity|]. destruct Hp as [Hp | [n Hp]]; rewrite Hp; auto.
Qed.

(** X7. Whenever the merged [decimalPlaces] is a primitive value, whatever
    else the caller's options and the element's attribute hold,
    [mergeConfiguration] returns [undefined] without raising; it points
    [this.config] to an object that was not allocated before and changes no
    other member of the instance, no binding, no event and no call record. *)
Theorem mergeConfiguration_never_raises
    (st : state) (D : gmap string value) (args : list value) :
  heap st !! defaults_loc = Some D ->
  primitive (read (merged st) "decimalPlaces") = true ->
  let r := mergeConfiguration args st in
  r.1 = Ret VUndefined
  /\ (exists c, config (self r.2) = VObj c
                /\ heap st !! c = None /\ is_Some (heap r.2 !! c))
  /\ element (self r.2) = element (self st)
  /\ jq_element (self r.2) = jq_element (self st)
  /\ options (self r.2) = options (self st)
  /\ metadata (self r.2) = metadata (self st)
  /\ elementLastValue (self r.2) = elementLastValue (self st)
  /\ bindings r.2 = bindings st
  /\ triggered r.2 = triggered st
  /\ calls r.2 = calls st.
Proof.
  intros HD _ r. subst r. rewrite (mergeConfiguration_spec st D args HD). simpl.
  split; [reflexivity|]. split; [|by repeat split].
  exists (fresh (dom (heap st))). split; [reflexivity|]. split; [apply fresh_unused|].
  rewrite lookup_insert_eq. eauto.
Qed.

(** ** Change detection without an element *)

(** X13. On an instance without an element [.val()] reads [undefined], so
    the check answers [true], records nothing, and answers [true] again
    however often it is repeated. *)
Theorem hasElementValueChanged_without_element (st : state) (args : list value) :
  jq_element (self st) = [] ->
  let r := hasElementValueChanged args st in
  r.1 = Ret (VBool true)
  /\ elementLastValue (self r.2) = VUndefined
  /\ (hasElementValueChanged args r.2).1 = Ret (VBool true).
Proof.
  intros Hn r. subst r. rewrite !hasElementValueChanged_spec. simpl.
  unfold current_val. simpl. rewrite Hn. simpl.
  rewrite strict_eq_undefined. split; [|done].
  by destruct (is_undefined (elementLastValue (self st))).
Qed.

(** ** The constructor *)

Lemma Numeric_on_node (n : node_id) (opts : value) (st : state) :
  Numeric (VNode n) opts st
  = (Ret tt,
     set_self (Instance (VNode n) [n] opts
                 (from_option node_options VUndefined (document st !! n))
                 VUndefined VUndefined) st).
Proof. reflexivity. Qed.

Lemma first_defined_head (v : value) (vs : list value) :
  is_undefined v = false -> first_defined (v :: vs) = v.
Proof. intros Hv. simpl. by rewrite Hv. Qed.

(** X12. For an instance constructed on an element, the field of
    [data-numeric-options] wins when it is there with a value other than
    [undefined]; without it the caller's field wins when it is there with
    such a value; without both the default is read. *)
Theorem element_options_override
    (st : state) (D : gmap string value) (n : node_id) (nd : node)
    (opts : value) (f : string) :
  heap st !! defaults_loc = Some D ->
  document st !! n = Some nd ->
  let M := enumerable (heap st) (node_options nd) in
  let U := enumerable (heap st) opts in
  let merged_field :=
    (bind (Numeric (VNode n) opts)
          (fun _ => bind merge_sources (fun _ => config_get f)) st).1 in
  (forall v, M !! f = Some v -> is_undefined v = false -> merged_field = Ret v)
  /\ (forall v, M !! f = None -> U !! f = Some v -> is_undefined v = false ->
      merged_field = Ret v)
  /\ (M !! f = None -> U !! f = None -> merged_field = Ret (read D f)).
Proof.
  intros HD Hn M U merged_field.
  assert (Hm : merged_field = Ret (first_defined [read M f; read U f; read D f])).
  { unfold merged_field.
    rewrite (bind_ret _ _ _ _ _ (Numeric_on_node n opts st)).
    rewrite (bind_ret _ _ _ _ _ (merge_sources_spec _)).
    rewrite config_get_with. simpl fst.
    rewrite (read_merged _ D f) by exact HD.
    simpl. rewrite Hn. reflexivity. }
  rewrite Hm. unfold read. repeat split.
  - intros v Hv Hd. rewrite Hv. simpl. by rewrite Hd.
  - intros v HM Hv Hd. rewrite HM, Hv. simpl. by rewrite Hd.
  - intros HM HU. rewrite HM, HU. simpl.
    destruct (D !! f) as [d|]; simpl; [|done].
    destruct (is_undefined d) eqn:Hd; [|done].
    by rewrite (first_defined_undefined d Hd).
Qed.

(** ** Binding before the configuration is there *)

Lemma config_get_undefined (st : state) (name : string) :
  config (self st) = VUndefined ->
  config_get name st
  = (Throw (TypeError ("Cannot read property '" ++ name ++ "' of undefined")), st).
Proof.
  intros Hc. unfold config_get, bind, this_get, gets. simpl. rewrite Hc. reflexivity.
Qed.

Lemma bind_throw {A B : Type} (c : M A) (k : A -> M B) (st st' : state) (e : exn) :
  c st = (Throw e, st') -> bind c k st = (Throw e, st').
Proof. intros H. unfold bind. by rewrite H. Qed.

(** X6. [bindEventReceivers] on an instance whose configuration has not
    been merged raises a TypeError reading [this.config.delegateRealtime],
    after having recorded the value of the field and bound [change] and
    [blur]. *)
Theorem bindEventReceivers_needs_configuration
    (depth : nat) (st : state) (args : list value) :
  config (self st) = VUndefined ->
  bindEventReceivers (call (S depth)) args st
  = (Throw (TypeError "Cannot read property 'delegateRealtime' of undefined"),
     bind_proxy "validateLazy" ["change"; "blur"] (record_value (current_val st) st)).
Proof.
  intros Hc. unfold bindEventReceivers.
  change (this_call (call (S depth)) "hasElementValueChanged" [])
    with (method (S depth) "hasElementValueChanged" []).
  rewrite method_hasElementValueChanged_body.
  rewrite (bind_ret _ _ _ _ _ (hasElementValueChanged_spec st [])).
  erewrite bind_ret; [|reflexivity].
  erewrite bind_ret; [|reflexivity].
  erewrite bind_ret; [|reflexivity].
  erewrite bind_ret; [|reflexivity].
  erewrite bind_throw; [reflexivity|].
  by apply config_get_undefined.
Qed.

(** ** Events on an initialised field *)





(** ** [$(elements).numeric(options)] *)

Lemma handlers_length (ns : list node_id) (events : list string) (h : value) :
  length (handlers ns events h) = (length ns * length events)%nat.
Proof.
  unfold handlers. induction ns as [|n ns IH]; simpl; [done|].
  by rewrite length_app, length_map, IH.
Qed.

Lemma initialised_frame (D : gmap string value) (st : state) :
  heap (initialised D st)
  = <[fresh (dom (heap st)) := resolve D (merged st)]> (heap st)
  /\ triggered (initialised D st) = triggered st
  /\ calls (initialised D st) = calls st
  /\ (length (bindings st) + 2 * length (jq_element (self st))
      <= length (bindings (initialised D st))
      <= length (bindings st) + 5 * length (jq_element (self st)))%nat.
Proof.
  unfold initialised, receivers_bound.
  destruct (realtime_off _); simpl; repeat split; try reflexivity;
    rewrite ?length_app, ?handlers_length; simpl; lia.
Qed.

(** X5. [$(field).numeric(options)] on one field of a page without
    handlers, with the defaults the source ships and a merged
    [decimalPlaces] that is a primitive value, returns the set it was called
    on. The instance it constructs is on the field with the options passed
    and has recorded the text of the field; [change] and [blur] are bound
    to a proxy of [validateLazy] and, unless the merged [delegateRealtime]
    is [false], [keydown], [keypress] and [keyup] to a second proxy, of
    [validateLive]: two handlers or five, and no other. The shared defaults
    object is unchanged, no event is triggered and no callback is
    invoked. *)
Theorem jq_numeric_initialises_the_field
    (depth : nat) (n : node_id) (opts : value) (st : state) :
  heap st !! defaults_loc = Some defaults ->
  bindings st = [] ->
  let st0 := (Numeric (VNode n) opts st).2 in
  primitive (read (merged st0) "decimalPlaces") = true ->
  let off := strict_eq (read (merged st0) "delegateRealtime") (VBool false) in
  let r := jq_numeric (S (S (S depth))) [n] opts st in
  r.1 = Ret (VJQuery [n])
  /\ element (self r.2) = VNode n
  /\ jq_element (self r.2) = [n]
  /\ options (self r.2) = opts
  /\ elementLastValue (self r.2) = VStr (text_of st n)
  /\ (exists h h' : fn_id,
        bindings r.2
        = (handlers [n] ["change"; "blur"] (VFun h)
           ++ (if off then []
               else handlers [n] ["keydown"; "keypress"; "keyup"] (VFun h')))%list
        /\ fns r.2 !! h = Some (Bound (VMethod "validateLazy") VThis [])
        /\ (off = false ->
            h <> h'
            /\ fns r.2 !! h' = Some (Bound (VMethod "validateLive") VThis [])))
  /\ heap r.2 !! defaults_loc = Some defaults
  /\ triggered r.2 = triggered st
  /\ calls r.2 = calls st.
Proof.
  intros HD Hb st0 _ off r.
  assert (Hr : r = (Ret (VJQuery [n]), initialised defaults st0)).
  { subst r. unfold jq_numeric. cbn [each_numeric].
    rewrite (bind_ret _ _ _ (initialised defaults st0) tt); [reflexivity|].
    rewrite (bind_ret _ _ _ _ _ (Numeric_on_node n opts st)).
    assert (HD0 : heap st0 !! defaults_loc = Some defaults) by exact HD.
    by rewrite (bind_ret _ _ _ _ _ (init_spec depth st0 defaults [] HD0)). }
  rewrite Hr. cbn [fst snd].
  destruct (initialised_frame defaults st0) as (Hh & Ht & Hc & _).
  destruct (initialised_handlers st0) as (h & h' & _ & Hbs & Hf & Hf').
  split; [reflexivity|].
  assert (Hself : element (self (initialised defaults st0)) = VNode n
                  /\ jq_element (self (initialised defaults st0)) = [n]
                  /\ options (self (initialised defaults st0)) = opts
                  /\ elementLastValue (self (initialised defaults st0))
                     = VStr (text_of st n)).
  { unfold initialised, receivers_bound. by destruct (realtime_off _). }
  destruct Hself as (He & Hj & Ho & Hl).
  split; [exact He|]. split; [exact Hj|]. split; [exact Ho|]. split; [exact Hl|].
  split.
  { exists h, h'. change (bindings st0) with (bindings st) in Hbs.
    rewrite Hb in Hbs. split; [exact Hbs|]. split; [exact Hf|].
    intros Hoff. destruct (Hf' Hoff) as (Hne & _ & Hlive). by split. }
  split.
  { rewrite Hh, lookup_insert_ne; [exact HD|].
    by apply (fresh_not_allocated st0 defaults_loc defaults). }
  split; [exact Ht | exact Hc].
Qed.

Lemma run_no_handlers (depth : nat) (this ev : value) (st : state) :
  run_handlers depth this [] ev st = (Ret tt, st).
Proof. reflexivity. Qed.


(** ** The errors of [buildEventObject] *)


(** ** [validate] without an element *)

(** X14. On an instance whose [element] is [undefined], [validate] returns
    the instance whatever its arguments and changes nothing: neither check
    is run. *)
Theorem validate_without_element (depth : nat) (st : state) (args : list value) :
  element (self st) = VUndefined ->
  method (S depth) "validate" args st = (Ret VThis, st).
Proof.
  intros He. rewrite method_validate_body.
  unfold validate. erewrite bind_ret; [|reflexivity].
  unfold this_get. simpl. rewrite He. reflexivity.
Qed.

(** ** Witnesses *)

Lemma init_returns_instance_witness :
  let st := (Numeric (VNode 1%positive) VUndefined page).2 in
  let r := method 3 "init" [] st in
  r.1 = Ret VThis
  /\ config (self r.2) = VObj (fresh (dom (heap st)))
  /\ heap st !! fresh (dom (heap st)) = None
  /\ elementLastValue (self r.2) = current_val st
  /\ (forall l o, heap st !! l = Some o -> heap r.2 !! l = Some o)
  /\ triggered r.2 = triggered st
  /\ calls r.2 = calls st.
Proof.
  apply (init_returns_instance 0 (Numeric (VNode 1%positive) VUndefined page).2 defaults []);
    reflexivity.
Defined.




Lemma decimalPlaces_of_other_types_witness :
  (bind (mergeConfiguration []) (fun _ => config_get "decimalPlaces") no_places_page).1
  = Ret VUndefined.
Proof.
  apply (decimalPlaces_of_other_types no_places_page []); reflexivity.
Defined.

Lemma configuration_fields_typed_witness :
  let field := fun name =>
    (bind (mergeConfiguration []) (fun _ => config_get name) places_page).1 in
  (exists b, field "negative" = Ret (VBool b))
  /\ (exists b, field "delegateRemoval" = Ret (VBool b))
  /\ (exists b, field "delegateRealtime" = Ret (VBool b))
  /\ (exists s, field "decimal" = Ret (VStr s) /\ String.length s = 1%nat)
  /\ (exists v, field "callbackInvalidEntry" = Ret v
                /\ (typeof v = "function" \/ v = VUndefined))
  /\ (exists v, field "callbackValidEntry" = Ret v
                /\ (typeof v = "function" \/ v = VUndefined))
  /\ (exists v, field "decimalPlaces" = Ret v
                /\ (v = VUndefined \/ typeof v = "number")).
Proof.
  apply (configuration_fields_typed places_page []); reflexivity.
Defined.

Lemma mergeConfiguration_never_raises_witness :
  let r := mergeConfiguration [] places_page in
  r.1 = Ret VUndefined
  /\ (exists c, config (self r.2) = VObj c
                /\ heap places_page !! c = None /\ is_Some (heap r.2 !! c))
  /\ element (self r.2) = element (self places_page)
  /\ jq_element (self r.2) = jq_element (self places_page)
  /\ options (self r.2) = options (self places_page)
  /\ metadata (self r.2) = metadata (self places_page)
  /\ elementLastValue (self r.2) = elementLastValue (self places_page)
  /\ bindings r.2 = bindings places_page
  /\ triggered r.2 = triggered places_page
  /\ calls r.2 = calls places_page.
Proof.
  apply (mergeConfiguration_never_raises places_page defaults []); reflexivity.
Defined.

Lemma hasElementValueChanged_without_element_witness :
  let r := hasElementValueChanged [] page in
  r.1 = Ret (VBool true)
  /\ elementLastValue (self r.2) = VUndefined
  /\ (hasElementValueChanged [] r.2).1 = Ret (VBool true).
Proof.
  apply (hasElementValueChanged_without_element page []). reflexivity.
Defined.

Lemma element_options_override_witness :
  let M := enumerable (heap attribute_page) (node_options (Node "7" (VObj 6%positive))) in
  let U := enumerable (heap attribute_page) (VObj 5%positive) in
  let merged_field :=
    (bind (Numeric (VNode 1%positive) (VObj 5%positive))
          (fun _ => bind merge_sources (fun _ => config_get "decimal"))
          attribute_page).1 in
  (forall v, M !! "decimal" = Some v -> is_undefined v = false -> merged_field = Ret v)
  /\ (forall v, M !! "decimal" = None -> U !! "decimal" = Some v ->
      is_undefined v = false -> merged_field = Ret v)
  /\ (M !! "decimal" = None -> U !! "decimal" = None ->
      merged_field = Ret (read defaults "decimal")).
Proof.
  apply (element_options_override attribute_page defaults 1%positive
           (Node "7" (VObj 6%positive)) (VObj 5%positive) "decimal");
    reflexivity.
Defined.

Lemma bindEventReceivers_needs_configuration_witness :
  bindEventReceivers (call 1) [] (Numeric (VNode 1%positive) VUndefined page).2
  = (Throw (TypeError "Cannot read property 'delegateRealtime' of undefined"),
     bind_proxy "validateLazy" ["change"; "blur"]
       (record_value (current_val (Numeric (VNode 1%positive) VUndefined page).2)
          (Numeric (VNode 1%positive) VUndefined page).2)).
Proof.
  apply (bindEventReceivers_needs_configuration 0
           (Numeric (VNode 1%positive) VUndefined page).2 []).
  reflexivity.
Defined.



Lemma jq_numeric_initialises_the_field_witness :
  let st0 := (Numeric (VNode 1%positive) VUndefined page).2 in
  let off := strict_eq (read (merged st0) "delegateRealtime") (VBool false) in
  let r := jq_numeric 3 [1%positive] VUndefined page in
  r.1 = Ret (VJQuery [1%positive])
  /\ element (self r.2) = VNode 1%positive
  /\ jq_element (self r.2) = [1%positive]
  /\ options (self r.2) = VUndefined
  /\ elementLastValue (self r.2) = VStr (text_of page 1%positive)
  /\ (exists h h' : fn_id,
        bindings r.2
        = (handlers [1%positive] ["change"; "blur"] (VFun h)
           ++ (if off then []
               else handlers [1%positive] ["keydown"; "keypress"; "keyup"] (VFun h')))%list
        /\ fns r.2 !! h = Some (Bound (VMethod "validateLazy") VThis [])
        /\ (off = false ->
            h <> h'
            /\ fns r.2 !! h' = Some (Bound (VMethod "validateLive") VThis [])))
  /\ heap r.2 !! defaults_loc = Some defaults
  /\ triggered r.2 = triggered page
  /\ calls r.2 = calls page.
Proof.
  apply (jq_numeric_initialises_the_field 0 1%positive VUndefined page); reflexivity.
Defined.


Lemma validate_without_element_witness :
  method 1 "validate" [] page = (Ret VThis, page).
Proof.
  apply (validate_without_element 0 page []). reflexivity.
Defined.
